(** * PacketListRecord: the per-row column-text cache of the Qt packet list

    A shallow embedding of [ui/qt/models/packet_list_record.cpp]:
    [PacketListRecord::columnString], [resetColumns], [resetColorized],
    [dissect] and [cacheColumnStrings], together with the properties of the
    cache-and-invalidate protocol they implement.

    Conventions of the embedding.
    - C [int] and [unsigned] values are [Z]; the one arithmetic operation on
      an [unsigned] (the generation bump) wraps at 2^32.  Line counts are
      bounded by the length of a column string and never approach INT_MAX.
    - A [const char *] is [option string]: [None] is the null pointer, and a
      [string] holds the bytes before the terminating NUL.
    - A pointer argument to a mutable object ([capture_file *],
      [column_info *]) is an [option] of the object's value; the callee
      returns the value it leaves behind the pointer.
    - The objects every record shares (the two static members) and the
      record itself are threaded through a [state].
    - The dissection engine, the record reader, the colouring rules and the
      column utilities live in other translation units; they are the
      methods of the class [Externals], and an instance of it is an implicit
      argument of every definition that calls them.
    - A log of the calls to [dissect], to the record source and to the
      dissection engine is threaded along with the state; the code has no
      such log, it is there to count these calls. *)

From Stdlib Require Import ZArith String Ascii List Bool Lia.
From stdpp Require Import base option list gmap.
Import ListNotations.

Local Open Scope string_scope.
Local Open Scope Z_scope.

(** ** Data *)

Definition QByteArray := string.
Definition color_filter_t := Z.
Definition conversation_t := Z.
Definition packet_info := Z.
Definition wtap_rec := list Byte.byte.

(** [frame_data]: the record metadata.  [num] stands for the immutable
    part (frame number, file offset, time stamps, flags); [color_filter]
    is the slot the colouring result is written to. *)
Record frame_data := mk_frame_data {
  num : Z;
  color_filter : option color_filter_t;
  need_colorize : bool
}.

(** [column_info]: [num_cols] columns; the per-column arrays are read only
    at indices [0 <= i < num_cols] and are total functions here. *)
Record column_info := mk_column_info {
  num_cols : Z;
  col_fmt : Z -> Z;
  col_data : Z -> string;
  col_expr_val : Z -> option string
}.

(** [capture_file]: [cf_source] stands for the parts this file only hands
    on (file handle, [epan] session, [cd_t], [provider]). *)
Record capture_file := mk_capture_file {
  cf_source : Z;
  cinfo : column_info
}.

(** [epan_dissect_t] as this file configures it before the run. *)
Record epan_dissect_t := mk_epan_dissect {
  edt_session : Z;
  edt_create_proto_tree : bool;
  edt_proto_tree_visible : bool;
  edt_color_primed : bool;
  edt_custom_primed : bool
}.

(** What one run of the dissection engine leaves behind: the [packet_info],
    the colouring slot of the frame and the column cells. *)
Record dissection := mk_dissection {
  dis_pi : packet_info;
  dis_color_filter : option color_filter_t;
  dis_need_colorize : bool;
  dis_col_data : Z -> string;
  dis_col_expr_val : Z -> option string
}.

(** The collaborators defined outside this file.  The record source is a
    function of the file and the frame: the capture file does not change
    under the reads considered.  The column utilities write one cell at a
    time, from the frame metadata and the format of the column. *)
Class Externals := mk_Externals {
  (** [cf_read_record_r (cap_file, fdata, &rec, &buf)]: the record bytes,
      [None] on a read error. *)
  cf_read_record_r : Z -> Z -> option wtap_rec;
  color_filters_used : bool;
  have_custom_cols : column_info -> bool;
  have_field_extractors : bool;
  epan_dissect_run :
    epan_dissect_t -> wtap_rec -> frame_data -> option column_info -> dissection;
  (** [epan_dissect_fill_in_columns (edt, FALSE, FALSE)]: the text of each
      column cell after the fill. *)
  epan_dissect_fill_in_columns : dissection -> column_info -> Z -> string;
  (** [col_fill_in_error (cinfo, fdata, FALSE, FALSE)]: the text written
      into the cell of a column of the given format for the given frame,
      [None] when the cell is left alone. *)
  col_fill_in_error_text : Z -> Z -> option string;
  (** [col_fill_in_frame_data (fdata, cinfo, col, FALSE)], likewise. *)
  col_fill_in_frame_data_text : Z -> Z -> option string;
  get_column_resolved : Z -> bool;
  col_based_on_frame_data : column_info -> Z -> bool;
  find_conversation_pinfo : packet_info -> option conversation_t
}.

(** The members of [PacketListRecord].  [col_text_] is a pointer to a
    [QList<const char *>]; [string_cache_pool_] only deduplicates storage
    and is not represented (an interned string has the content it was
    given). *)
Record PacketListRecord := mk_PacketListRecord {
  col_text_ : option (list (option string));
  fdata_ : frame_data;
  lines_ : Z;
  line_count_changed_ : bool;
  data_ver_ : Z;
  colorized_ : bool;
  conv_ : option conversation_t
}.

(** The log: entries into [dissect] and the calls it makes to the record
    source, to [col_fill_in_error] and to the dissection engine, in the
    order they happen. *)
Inductive event :=
| EvDissect (dissect_color : bool)
| EvReadRecord (ok : bool)
| EvFillInError
| EvEpanDissectRun (edt : epan_dissect_t).

(** One record together with the static members
    [PacketListRecord::cinfo_column_] and [PacketListRecord::col_data_ver_]
    and the log of outgoing calls. *)
Record state := mk_state {
  this : PacketListRecord;
  cinfo_column_ : gmap Z Z;
  col_data_ver_ : Z;
  trace : list event
}.

(** ** Field updates *)

Definition set_col_text (v : option (list (option string))) (r : PacketListRecord) :=
  mk_PacketListRecord v (fdata_ r) (lines_ r) (line_count_changed_ r)
                      (data_ver_ r) (colorized_ r) (conv_ r).
Definition set_fdata (v : frame_data) (r : PacketListRecord) :=
  mk_PacketListRecord (col_text_ r) v (lines_ r) (line_count_changed_ r)
                      (data_ver_ r) (colorized_ r) (conv_ r).
Definition set_lines (v : Z) (r : PacketListRecord) :=
  mk_PacketListRecord (col_text_ r) (fdata_ r) v (line_count_changed_ r)
                      (data_ver_ r) (colorized_ r) (conv_ r).
Definition set_line_count_changed (v : bool) (r : PacketListRecord) :=
  mk_PacketListRecord (col_text_ r) (fdata_ r) (lines_ r) v
                      (data_ver_ r) (colorized_ r) (conv_ r).
Definition set_data_ver (v : Z) (r : PacketListRecord) :=
  mk_PacketListRecord (col_text_ r) (fdata_ r) (lines_ r) (line_count_changed_ r)
                      v (colorized_ r) (conv_ r).
Definition set_colorized (v : bool) (r : PacketListRecord) :=
  mk_PacketListRecord (col_text_ r) (fdata_ r) (lines_ r) (line_count_changed_ r)
                      (data_ver_ r) v (conv_ r).
Definition set_conv (v : option conversation_t) (r : PacketListRecord) :=
  mk_PacketListRecord (col_text_ r) (fdata_ r) (lines_ r) (line_count_changed_ r)
                      (data_ver_ r) (colorized_ r) v.

Definition set_color_filter (v : option color_filter_t) (fd : frame_data) :=
  mk_frame_data (num fd) v (need_colorize fd).
Definition set_need_colorize (v : bool) (fd : frame_data) :=
  mk_frame_data (num fd) (color_filter fd) v.

Definition set_col_data (v : Z -> string) (ci : column_info) :=
  mk_column_info (num_cols ci) (col_fmt ci) v (col_expr_val ci).
Definition set_col_expr_val (v : Z -> option string) (ci : column_info) :=
  mk_column_info (num_cols ci) (col_fmt ci) (col_data ci) v.
Definition set_cinfo (v : column_info) (cf : capture_file) :=
  mk_capture_file (cf_source cf) v.

Definition set_this (v : PacketListRecord) (s : state) :=
  mk_state v (cinfo_column_ s) (col_data_ver_ s) (trace s).
Definition set_cinfo_column (v : gmap Z Z) (s : state) :=
  mk_state (this s) v (col_data_ver_ s) (trace s).
Definition set_col_data_ver (v : Z) (s : state) :=
  mk_state (this s) (cinfo_column_ s) v (trace s).
Definition log (e : event) (s : state) :=
  mk_state (this s) (cinfo_column_ s) (col_data_ver_ s) (trace s ++ [e]).

(** [a[i] = v] on an array represented by a function. *)
Definition upd {A} (f : Z -> A) (i : Z) (v : A) : Z -> A :=
  fun j => if j =? i then v else f j.

(** ** The constructor *)

Definition PacketListRecord_new (frameData : frame_data) : PacketListRecord :=
  mk_PacketListRecord None frameData 1 false 0 false None.

(** The initial value of the static [col_data_ver_]. *)
Definition col_data_ver_init : Z := 1.

(** ** Container and column helpers *)

(** [QList::size], [QList::isEmpty], [QList::append] and
    [QList::value (i, QByteArray())] through the [col_text_] pointer.  The
    source dereferences the pointer only where it is not null; the [None]
    cases below are the ones it never reaches. *)
Definition QList_size (p : option (list (option string))) : Z :=
  match p with Some l => Z.of_nat (length l) | None => 0 end.

Definition QList_isEmpty (p : option (list (option string))) : bool :=
  QList_size p =? 0.

Definition QList_append (x : option string) (p : option (list (option string)))
  : option (list (option string)) :=
  match p with Some l => Some (l ++ [x])%list | None => Some [x] end.

(** [QList::at]: the element, a null pointer or not. *)
Definition QList_at (p : option (list (option string))) (i : Z) : option string :=
  match p with
  | Some l => if i <? 0 then None else mjoin (l !! Z.to_nat i)
  | None => None
  end.

(** [QList::value (i, QByteArray())] converted back to a [QByteArray]: the
    bytes of the element, and the empty array out of range or for a null
    element. *)
Definition QList_value (p : option (list (option string))) (i : Z) : QByteArray :=
  match QList_at p i with Some t => t | None => "" end.

(** The inner loop of [cacheColumnStrings]:
    [for (int i = 0; col_str[i]; i++) if (col_str[i] == '\n') col_lines++;] *)
Fixpoint count_col_lines (col_str : string) (col_lines : Z) : Z :=
  match col_str with
  | EmptyString => col_lines
  | String c rest =>
      count_col_lines rest (if Ascii.eqb c "010"%char then col_lines + 1 else col_lines)
  end.

(** [col_fill_in_frame_data (fdata, cinfo, col, FALSE)] writes the one cell
    [cinfo->columns[col].col_data]. *)
Definition col_fill_in_frame_data {X : Externals} (fd : frame_data)
    (ci : column_info) (col : Z) : column_info :=
  match col_fill_in_frame_data_text (num fd) (col_fmt ci col) with
  | Some t => set_col_data (upd (col_data ci) col t) ci
  | None => ci
  end.

(** [col_fill_in_error (cinfo, fdata, FALSE, FALSE)] visits the cells of
    the columns [0 .. num_cols - 1]. *)
Definition col_fill_in_error {X : Externals} (ci : column_info) (fd : frame_data)
  : column_info :=
  set_col_data
    (fun i =>
       if (0 <=? i) && (i <? num_cols ci) then
         match col_fill_in_error_text (num fd) (col_fmt ci i) with
         | Some t => t
         | None => col_data ci i
         end
       else col_data ci i)
    ci.

(** ** [PacketListRecord::cacheColumnStrings] *)

(** One iteration of the column loop (the branch compiled when
    [MINIMIZE_STRING_COPYING] is not defined, which is the case). *)
Definition cache_column {X : Externals} (acc : column_info * state) (column : Z)
  : column_info * state :=
  let '(ci, s) := acc in
  let r := this s in
  let '(ci, col_str) :=
    match (if get_column_resolved column then None else col_expr_val ci column) with
    | Some unresolved => (ci, unresolved)
    | None =>
        let text_col := default (-1) (cinfo_column_ s !! column) in
        let ci := if text_col <? 0
                  then col_fill_in_frame_data (fdata_ r) ci column
                  else ci in
        (ci, col_data ci column)
    end in
  let r := set_col_text (QList_append (Some col_str) (col_text_ r)) r in
  let col_lines := count_col_lines col_str 1 in
  let r := if col_lines >? lines_ r
           then set_line_count_changed true (set_lines col_lines r)
           else r in
  (ci, set_this r s).

Definition cacheColumnStrings {X : Externals} (cinfo : option column_info) (s : state)
  : option column_info * state :=
  match cinfo with
  | None => (None, s)
  | Some ci =>
      let r := set_col_text (Some []) (this s) in
      let r := set_lines 1 r in
      let r := set_line_count_changed false r in
      let '(ci, s) :=
        fold_left (cache_column) (seqZ 0 (num_cols ci)) (ci, set_this r s) in
      (Some ci, s)
  end.

(** ** [PacketListRecord::dissect] *)

(** The decision whether to build a protocol tree.  [have_custom_cols] is
    evaluated only behind [dissect_columns], where [cinfo] is not null. *)
Definition create_proto_tree {X : Externals} (dissect_color dissect_columns : bool)
    (cinfo : option column_info) : bool :=
  (dissect_color && color_filters_used)
  || (dissect_columns
      && (from_option (have_custom_cols) false cinfo || have_field_extractors)).

(** What the pointer [cap_file] designates once [cinfo] has been written
    through. *)
Definition store_cinfo (cinfo : option column_info) (cf : capture_file)
  : option capture_file :=
  Some (from_option (fun ci => set_cinfo ci cf) cf cinfo).

Definition dissect {X : Externals} (cap_file : option capture_file)
    (dissect_color : bool) (s : state) : option capture_file * state :=
  let s := log (EvDissect dissect_color) s in
  let s := match col_text_ (this s) with
           | None => set_this (set_col_text (Some []) (this s)) s
           | Some _ => s
           end in
  let dissect_columns :=
    QList_isEmpty (col_text_ (this s))
    || negb (data_ver_ (this s) =? col_data_ver_ s) in
  match cap_file with
  | None => (None, s)
  | Some cf =>
      let cinfo := if dissect_columns then Some (cinfo cf) else None in
      match cf_read_record_r (cf_source cf) (num (fdata_ (this s))) with
      | None =>
          (* Error reading the record. *)
          let s := log (EvReadRecord false) s in
          let '(cinfo, s) :=
            if dissect_columns then
              cacheColumnStrings
                (option_map (fun ci => col_fill_in_error ci (fdata_ (this s))) cinfo)
                (log EvFillInError s)
            else (cinfo, s) in
          let s := if dissect_color then
                     set_this (set_colorized true
                                 (set_fdata (set_color_filter None (fdata_ (this s)))
                                            (this s))) s
                   else s in
          (store_cinfo cinfo cf, s)
      | Some rec =>
          let s := log (EvReadRecord true) s in
          let edt := mk_epan_dissect (cf_source cf)
                       (create_proto_tree dissect_color dissect_columns cinfo)
                       false false false in
          (* Re-color when the coloring rules are changed via the UI. *)
          let '(edt, s) :=
            if dissect_color then
              (mk_epan_dissect (edt_session edt) (edt_create_proto_tree edt)
                               (edt_proto_tree_visible edt) true (edt_custom_primed edt),
               set_this (set_fdata (set_need_colorize true (fdata_ (this s))) (this s)) s)
            else (edt, s) in
          let edt := if dissect_columns then
                       mk_epan_dissect (edt_session edt) (edt_create_proto_tree edt)
                                       (edt_proto_tree_visible edt) (edt_color_primed edt) true
                     else edt in
          let s := log (EvEpanDissectRun edt) s in
          let d := epan_dissect_run edt rec (fdata_ (this s)) cinfo in
          let s := set_this (set_fdata (mk_frame_data (num (fdata_ (this s)))
                                                      (dis_color_filter d)
                                                      (dis_need_colorize d))
                                       (this s)) s in
          let cinfo := option_map (fun ci => set_col_expr_val (dis_col_expr_val d)
                                               (set_col_data (dis_col_data d) ci)) cinfo in
          let '(cinfo, s) :=
            if dissect_columns then
              (* "Stringify" non frame_data vals *)
              cacheColumnStrings
                (option_map (fun ci => set_col_data (epan_dissect_fill_in_columns d ci) ci)
                            cinfo)
                s
            else (cinfo, s) in
          let s := if dissect_color then set_this (set_colorized true (this s)) s else s in
          let s := set_this (set_data_ver (col_data_ver_ s) (this s)) s in
          let s := set_this (set_conv (find_conversation_pinfo (dis_pi d)) (this s)) s in
          (store_cinfo cinfo cf, s)
      end
  end.

(** ** [PacketListRecord::columnString] *)

Definition columnString {X : Externals} (cap_file : option capture_file)
    (column : Z) (colorized : bool) (s : state)
  : QByteArray * option capture_file * state :=
  match cap_file with
  | None => ("", None, s)
  | Some cf =>
      if (column <? 0) || (column >? num_cols (cinfo cf)) then ("", cap_file, s)
      else
        let dissect_color := colorized && negb (colorized_ (this s)) in
        let '(cap_file, s) :=
          if match col_text_ (this s) with None => true | Some _ => false end
             || (column >=? QList_size (col_text_ (this s)))
             || match QList_at (col_text_ (this s)) column with
                | None => true | Some _ => false end
             || negb (data_ver_ (this s) =? col_data_ver_ s)
             || dissect_color
          then dissect cap_file dissect_color s
          else (cap_file, s) in
        (QList_value (col_text_ (this s)) column, cap_file, s)
  end.

(** ** [PacketListRecord::resetColumns] and [resetColorized] *)

(** Modelled from the spec: [invalidateAllRecords] is defined in
    [packet_list_record.h], which is not part of the sources at hand; the
    specification says that a schema change bumps the generation.  The
    generation is the [unsigned] static [col_data_ver_], so the bump wraps
    at 2^32. *)
Definition invalidateAllRecords (s : state) : state :=
  set_col_data_ver ((col_data_ver_ s + 1) mod 2 ^ 32) s.

(** The body of the loop [for (i = 0, j = 0; i < cinfo->num_cols; i++)]. *)
Definition map_column {X : Externals} (ci : column_info) (acc : gmap Z Z * Z) (i : Z)
  : gmap Z Z * Z :=
  let '(m, j) := acc in
  if negb (col_based_on_frame_data ci i) then (<[i := j]> m, j + 1) else (m, j).

Definition resetColumns {X : Externals} (cinfo : option column_info) (s : state) : state :=
  let s := invalidateAllRecords s in
  match cinfo with
  | None => s
  | Some ci =>
      let s := set_cinfo_column ∅ s in
      let '(m, _) :=
        fold_left (map_column ci) (seqZ 0 (num_cols ci)) (cinfo_column_ s, 0) in
      set_cinfo_column m s
  end.

Definition resetColorized (s : state) : state :=
  set_this (set_colorized false (this s)) s.

(** ** Observations on the log *)

Definition is_dissect (e : event) : bool :=
  match e with EvDissect _ => true | _ => false end.
Definition is_read (e : event) : bool :=
  match e with EvReadRecord _ => true | _ => false end.
Definition is_parse (e : event) : bool :=
  match e with EvEpanDissectRun _ => true | _ => false end.

(** Number of population passes ([dissect] calls), of calls to the record
    source and of runs of the dissection engine in a log. *)
Definition populations (tr : list event) : nat := length (List.filter is_dissect tr).
Definition record_reads (tr : list event) : nat := length (List.filter is_read tr).
Definition parser_runs (tr : list event) : nat := length (List.filter is_parse tr).

(** Number of newline characters of a column text. *)
Definition newline_count (t : string) : Z :=
  Z.of_nat (length (List.filter (Ascii.eqb "010"%char) (list_ascii_of_string t))).

(** The text [cacheColumnStrings] chooses for a column, and the content of
    the column's cell once the column has been visited, as functions of the
    column information the loop starts from. *)
Definition uses_unresolved {X : Externals} (ci : column_info) (column : Z) : bool :=
  negb (get_column_resolved column)
  && match col_expr_val ci column with Some _ => true | None => false end.

Definition column_cell {X : Externals} (m : gmap Z Z) (fd : frame_data)
    (ci : column_info) (column : Z) : string :=
  if uses_unresolved ci column then col_data ci column
  else if default (-1) (m !! column) <? 0
       then col_data (col_fill_in_frame_data fd ci column) column
       else col_data ci column.

Definition column_text {X : Externals} (m : gmap Z Z) (fd : frame_data)
    (ci : column_info) (column : Z) : string :=
  match (if get_column_resolved column then None else col_expr_val ci column) with
  | Some unresolved => unresolved
  | None => column_cell m fd ci column
  end.

(** Number of lines of a cached text. *)
Definition text_lines (o : option string) : Z :=
  match o with Some t => newline_count t + 1 | None => 1 end.

(** The column information after the loop has visited [column]. *)
Definition visited {X : Externals} (m : gmap Z Z) (fd : frame_data)
    (ci : column_info) (column : Z) : column_info :=
  if uses_unresolved ci column then ci
  else if default (-1) (m !! column) <? 0
       then col_fill_in_frame_data fd ci column else ci.

(** The cache of a record covers the columns of [cf] and carries the
    current generation. *)
Definition cache_current (s : state) (cf : capture_file) : Prop :=
  exists l, col_text_ (this s) = Some l
            /\ Z.of_nat (length l) = num_cols (cinfo cf)
            /\ Forall is_Some l
            /\ data_ver_ (this s) = col_data_ver_ s.

(** The invariant of the data model: texts stamped with the current
    generation cover exactly the columns of the current schema. *)
Definition cache_coherent (s : state) (cf : capture_file) : Prop :=
  forall l, col_text_ (this s) = Some l -> l <> [] ->
            data_ver_ (this s) = col_data_ver_ s ->
            Z.of_nat (length l) = num_cols (cinfo cf) /\ Forall is_Some l.

(** The texts a population caches for the columns [0 .. num_cols - 1]. *)
Definition cached_texts {X : Externals} (m : gmap Z Z) (fd : frame_data)
    (ci : column_info) : list (option string) :=
  map (fun c => Some (column_text m fd ci c)) (seqZ 0 (num_cols ci)).

(** The condition under which [dissect] refills the columns, and the one
    under which [columnString] calls [dissect]. *)
Definition dissect_columns_needed (s : state) : bool :=
  QList_isEmpty (col_text_ (this s))
  || negb (data_ver_ (this s) =? col_data_ver_ s).

Definition cache_miss (s : state) (column : Z) (dissect_color : bool) : bool :=
  match col_text_ (this s) with None => true | Some _ => false end
  || (column >=? QList_size (col_text_ (this s)))
  || match QList_at (col_text_ (this s)) column with None => true | Some _ => false end
  || negb (data_ver_ (this s) =? col_data_ver_ s)
  || dissect_color.

(** The states a record goes through: constructed at any moment of the
    session, then driven through its public operations. *)
Inductive reachable {X : Externals} : state -> Prop :=
| reach_new (fd : frame_data) (m : gmap Z Z) (v : Z) (tr : list event) :
    reachable (mk_state (PacketListRecord_new fd) m v tr)
| reach_columnString (s : state) (cap_file : option capture_file)
    (column : Z) (colorized : bool) :
    reachable s ->
    reachable (snd (columnString cap_file column colorized s))
| reach_resetColumns (s : state) (cinfo : option column_info) :
    reachable s -> reachable (resetColumns cinfo s)
| reach_resetColorized (s : state) :
    reachable s -> reachable (resetColorized s).

(** The dissector handle [dissect] sets up before the run. *)
Definition dissect_edt {X : Externals} (cf : capture_file)
    (dissect_color dissect_columns : bool) : epan_dissect_t :=
  mk_epan_dissect (cf_source cf)
    (create_proto_tree dissect_color dissect_columns
       (if dissect_columns then Some (cinfo cf) else None))
    false dissect_color dissect_columns.

(** ** A small concrete setting

    Column formats: 0 is the frame number (filled from the metadata), 1 the
    Info column, 2 the protocol column, 3 a custom column.  Frame 2 cannot
    be read; the Info text of frame 1 spans three lines. *)
Module Demo.

Definition nl : string := String "010"%char EmptyString.

Definition info_text (n : Z) : string :=
  if n =? 1 then ("a" ++ nl ++ "b" ++ nl ++ "c")%string else "Echo request".

Definition parsed (n : Z) (ci : option column_info) (i : Z) : string :=
  match ci with
  | Some c => if col_fmt c i =? 1 then info_text n
              else if col_fmt c i =? 2 then "ICMP" else col_data c i
  | None => ""
  end.

Definition ext : Externals :=
  mk_Externals
    (fun _ n => if n =? 2 then None else Some [])
    true
    (fun ci => existsb (fun i => col_fmt ci i =? 3) (seqZ 0 (num_cols ci)))
    false
    (fun edt _ fd ci =>
       mk_dissection (num fd)
         (if need_colorize fd then Some 7 else color_filter fd) false
         (parsed (num fd) ci) (fun _ => None))
    (fun d ci => col_data ci)
    (fun _ fmt => if fmt =? 0 then None
                  else if fmt =? 1 then Some "Read error" else Some "???")
    (fun n fmt => if fmt =? 0 then Some (if n =? 1 then "1" else "2") else None)
    (fun _ => true)
    (fun ci i => col_fmt ci i =? 0)
    (fun pi => Some pi).

(** The same collaborators once the capture file can no longer be read. *)
Definition unreadable : Externals :=
  mk_Externals
    (fun _ _ => None)
    (@color_filters_used ext) (@have_custom_cols ext) (@have_field_extractors ext)
    (@epan_dissect_run ext) (@epan_dissect_fill_in_columns ext)
    (@col_fill_in_error_text ext) (@col_fill_in_frame_data_text ext)
    (@get_column_resolved ext) (@col_based_on_frame_data ext)
    (@find_conversation_pinfo ext).

(** Schemas with two and with three columns. *)
Definition cinfo2 : column_info :=
  mk_column_info 2 (fun i => if i =? 0 then 0 else 1) (fun _ => "") (fun _ => None).
Definition cinfo3 : column_info :=
  mk_column_info 3 (fun i => if i =? 0 then 0 else if i =? 1 then 1 else 2)
                 (fun _ => "") (fun _ => None).
Definition cf2 : capture_file := mk_capture_file 0 cinfo2.
Definition cf3 : capture_file := mk_capture_file 0 cinfo3.

(** A freshly constructed record for frame [n], after [resetColumns] has
    run once for the two-column schema. *)
Definition fresh (n : Z) : state :=
  resetColumns (X := ext) (Some cinfo2)
    (mk_state (PacketListRecord_new (mk_frame_data n None false)) ∅ col_data_ver_init []).

End Demo.

(** States of the concrete setting: the record of frame 1 after a first
    uncoloured read of its Info column, and the capture file as that read
    left it. *)
Module DemoRuns.

Definition first_read :=
  columnString (X := Demo.ext) (Some Demo.cf2) 1 false (Demo.fresh 1).
Definition populated : state := snd first_read.
Definition populated_cf : option capture_file := snd (fst first_read).

Definition populated_cinfo : column_info :=
  from_option cinfo Demo.cinfo2 populated_cf.

End DemoRuns.

(** Number of columns before [i] that are not based on the frame data:
    the value [j] of the loop of [resetColumns] when it reaches column [i]. *)
Definition parser_columns_before {X : Externals} (ci : column_info) (i : Z) : Z :=
  Z.of_nat (length (List.filter (fun k => negb (col_based_on_frame_data ci k))
                                (seqZ 0 i))).

(** The same [columnString] call made [n] times in a row on one record,
    each call seeing the capture file as the previous one left it. *)
Fixpoint columnString_times {X : Externals} (n : nat) (cap_file : option capture_file)
    (column : Z) (colorized : bool) (s : state) : option capture_file * state :=
  match n with
  | O => (cap_file, s)
  | S n' =>
      let '(_, cap_file', s') := columnString cap_file column colorized s in
      columnString_times n' cap_file' column colorized s'
  end.

(** * Properties *)

(** ** Line counting *)

Lemma count_col_lines_newlines (t : string) (k : Z) :
  count_col_lines t k = k + newline_count t.
Proof.
  revert k. unfold newline_count.
  induction t as [|c t IH]; intros k;
    cbn [count_col_lines list_ascii_of_string List.filter].
  - simpl. lia.
  - rewrite IH, (Ascii.eqb_sym "010"%char c).
    destruct (Ascii.eqb c "010"%char); cbn [length]; lia.
Qed.

Lemma newline_count_nonneg (t : string) : 0 <= newline_count t.
Proof. unfold newline_count. lia. Qed.

Lemma fold_max_ge (l : list Z) (a : Z) : a <= fold_left Z.max l a.
Proof.
  revert a. induction l as [|x l IH]; intros a; simpl; [lia|].
  specialize (IH (Z.max a x)). lia.
Qed.

Lemma fold_max_upper (l : list Z) (a : Z) :
  forall x, In x l -> x <= fold_left Z.max l a.
Proof.
  revert a. induction l as [|y l IH]; intros a x Hin; simpl in *; [tauto|].
  destruct Hin as [->|Hin].
  - pose proof (fold_max_ge l (Z.max a x)). lia.
  - now apply IH.
Qed.

Lemma fold_max_attained (l : list Z) (a : Z) :
  fold_left Z.max l a = a \/ In (fold_left Z.max l a) l.
Proof.
  revert a. induction l as [|y l IH]; intros a; simpl; [now left|].
  destruct (IH (Z.max a y)) as [H|H].
  - rewrite H. destruct (Z.max_spec a y) as [[_ E]|[_ E]]; rewrite E; auto.
  - auto.
Qed.

(** ** One turn of the column loop *)

Lemma cache_column_eq {X : Externals} (ci : column_info) (s : state) (column : Z) :
  cache_column (ci, s) column =
  (let m := cinfo_column_ s in
   let fd := fdata_ (this s) in
   let t := column_text m fd ci column in
   let r := set_col_text (QList_append (Some t) (col_text_ (this s))) (this s) in
   (if uses_unresolved ci column then ci
    else if default (-1) (m !! column) <? 0
         then col_fill_in_frame_data fd ci column else ci,
    set_this (if count_col_lines t 1 >? lines_ (this s)
              then set_line_count_changed true (set_lines (count_col_lines t 1) r)
              else r) s)).
Proof.
  unfold cache_column, column_text, column_cell, uses_unresolved.
  destruct (get_column_resolved column); simpl.
  - destruct (default (-1) (cinfo_column_ s !! column) <? 0); reflexivity.
  - destruct (col_expr_val ci column); simpl; [reflexivity|].
    destruct (default (-1) (cinfo_column_ s !! column) <? 0); reflexivity.
Qed.

Lemma col_fill_in_frame_data_schema {X : Externals} fd ci c :
  num_cols (col_fill_in_frame_data fd ci c) = num_cols ci
  /\ col_fmt (col_fill_in_frame_data fd ci c) = col_fmt ci
  /\ col_expr_val (col_fill_in_frame_data fd ci c) = col_expr_val ci
  /\ (forall j, j <> c ->
        col_data (col_fill_in_frame_data fd ci c) j = col_data ci j).
Proof.
  unfold col_fill_in_frame_data.
  destruct (col_fill_in_frame_data_text (num fd) (col_fmt ci c)); simpl; auto.
  repeat split; auto. intros j Hj. unfold upd.
  destruct (Z.eqb_spec j c); congruence.
Qed.

(** The texts and cells of a column depend on the column information only
    through the schema and the column's own cell. *)
Lemma column_cell_ext {X : Externals} m fd ci ci' c :
  col_fmt ci' = col_fmt ci -> col_expr_val ci' = col_expr_val ci ->
  col_data ci' c = col_data ci c ->
  column_cell m fd ci' c = column_cell m fd ci c.
Proof.
  intros Hf He Hd. unfold column_cell, uses_unresolved, col_fill_in_frame_data.
  rewrite Hf, He, Hd.
  destruct (col_fill_in_frame_data_text (num fd) (col_fmt ci c)); simpl;
    unfold upd; rewrite ?Z.eqb_refl, ?Hd; reflexivity.
Qed.

Lemma column_text_ext {X : Externals} m fd ci ci' c :
  col_fmt ci' = col_fmt ci -> col_expr_val ci' = col_expr_val ci ->
  col_data ci' c = col_data ci c ->
  column_text m fd ci' c = column_text m fd ci c.
Proof.
  intros Hf He Hd. unfold column_text.
  rewrite He, (column_cell_ext m fd ci ci' c Hf He Hd). reflexivity.
Qed.

(** What the loop leaves untouched. *)
Lemma cache_loop_frame {X : Externals} (cols : list Z) :
  forall ci s ci' s',
    fold_left (cache_column) cols (ci, s) = (ci', s') ->
    fdata_ (this s') = fdata_ (this s)
    /\ data_ver_ (this s') = data_ver_ (this s)
    /\ colorized_ (this s') = colorized_ (this s)
    /\ conv_ (this s') = conv_ (this s)
    /\ cinfo_column_ s' = cinfo_column_ s
    /\ col_data_ver_ s' = col_data_ver_ s
    /\ trace s' = trace s
    /\ num_cols ci' = num_cols ci
    /\ col_fmt ci' = col_fmt ci
    /\ col_expr_val ci' = col_expr_val ci
    /\ (forall j, ~ In j cols -> col_data ci' j = col_data ci j).
Proof.
  induction cols as [|c cols IH]; intros ci s ci' s' H; cbn [fold_left] in H.
  - injection H as <- <-. repeat split; auto.
  - rewrite cache_column_eq in H. cbv zeta in H.
    apply IH in H. clear IH.
    destruct H as (H1 & H2 & H3 & H4 & H5 & H6 & H7 & H8 & H9 & H10 & H11).
    pose proof (col_fill_in_frame_data_schema (fdata_ (this s)) ci c)
      as (F1 & F2 & F3 & F4).
    assert (Hr : forall b r1 r2,
               set_this (if b : bool then r1 else r2) s
               = if b then set_this r1 s else set_this r2 s)
      by (intros [] ? ?; reflexivity).
    rewrite Hr in *. clear Hr.
    destruct (count_col_lines _ 1 >? lines_ (this s));
      simpl in H1, H2, H3, H4, H5, H6, H7;
      (repeat split; [assumption..| | | |]);
      destruct (uses_unresolved ci c);
      try destruct (default (-1) (cinfo_column_ s !! c) <? 0);
      try congruence;
      try (intros j Hj; rewrite H11 by (simpl in Hj; tauto);
           try apply F4; simpl in Hj; try reflexivity; intros ->; tauto).
Qed.

Lemma visited_schema {X : Externals} m fd ci c :
  num_cols (visited m fd ci c) = num_cols ci
  /\ col_fmt (visited m fd ci c) = col_fmt ci
  /\ col_expr_val (visited m fd ci c) = col_expr_val ci
  /\ (forall j, j <> c -> col_data (visited m fd ci c) j = col_data ci j)
  /\ col_data (visited m fd ci c) c = column_cell m fd ci c.
Proof.
  pose proof (col_fill_in_frame_data_schema fd ci c) as (F1 & F2 & F3 & F4).
  unfold visited, column_cell.
  destruct (uses_unresolved ci c); [repeat split; auto|].
  destruct (default (-1) (m !! c) <? 0); repeat split; auto.
Qed.

Lemma cache_column_step {X : Externals} (ci : column_info) (s : state) (column : Z) :
  exists s1,
    cache_column (ci, s) column
    = (visited (cinfo_column_ s) (fdata_ (this s)) ci column, s1)
    /\ col_text_ (this s1)
       = QList_append
           (Some (column_text (cinfo_column_ s) (fdata_ (this s)) ci column))
           (col_text_ (this s))
    /\ lines_ (this s1)
       = Z.max (lines_ (this s))
               (text_lines
                  (Some (column_text (cinfo_column_ s) (fdata_ (this s)) ci column)))
    /\ line_count_changed_ (this s1)
       = line_count_changed_ (this s) || (lines_ (this s) <? lines_ (this s1))
    /\ fdata_ (this s1) = fdata_ (this s)
    /\ cinfo_column_ s1 = cinfo_column_ s.
Proof.
  rewrite cache_column_eq. cbv zeta.
  fold (visited (cinfo_column_ s) (fdata_ (this s)) ci column).
  eexists. split; [reflexivity|].
  unfold text_lines. rewrite count_col_lines_newlines.
  set (t := column_text _ _ _ _).
  destruct (Z.gtb_spec (1 + newline_count t) (lines_ (this s))) as [Hgt|Hle]; simpl;
    rewrite ?Z.ltb_irrefl, ?orb_false_r; repeat split; try reflexivity; lia.
Qed.

(** The texts appended by the loop and the line count it computes. *)
Lemma cache_loop_lines {X : Externals} (cols : list Z) :
  forall ci s ci' s' l,
    col_text_ (this s) = Some l ->
    fold_left (cache_column) cols (ci, s) = (ci', s') ->
    exists new,
      col_text_ (this s') = Some (l ++ new)%list
      /\ length new = length cols
      /\ Forall is_Some new
      /\ lines_ (this s') = fold_left Z.max (map text_lines new) (lines_ (this s))
      /\ line_count_changed_ (this s')
         = line_count_changed_ (this s) || (lines_ (this s) <? lines_ (this s')).
Proof.
  induction cols as [|c cols IH]; intros ci s ci' s' l Hl H; cbn [fold_left] in H.
  - injection H as <- <-. exists []. rewrite app_nil_r, Z.ltb_irrefl, orb_false_r.
    repeat split; auto.
  - destruct (cache_column_step ci s c) as (s1 & E & T & L & C & _).
    rewrite E in H. rewrite Hl in T. cbn [QList_append] in T.
    destruct (IH _ _ _ _ _ T H) as (new & T' & Len & Hs & L' & C').
    eexists (_ :: new). rewrite T', <- app_assoc. cbn [app].
    split; [reflexivity|]. split; [simpl; congruence|].
    split; [constructor; [eexists; reflexivity | assumption]|].
    cbn [map fold_left]. rewrite <- L. split; [assumption|].
    rewrite C', C.
    pose proof (fold_max_ge (map text_lines new) (lines_ (this s1))) as G.
    rewrite <- L' in G.
    assert (lines_ (this s) <= lines_ (this s1)) by lia.
    destruct (line_count_changed_ (this s)); simpl; lia.
Qed.

(** The texts and the cells in terms of the column information the loop
    starts from (each column is visited once). *)
Lemma cache_loop_texts {X : Externals} (cols : list Z) :
  List.NoDup cols ->
  forall ci s ci' s' l,
    col_text_ (this s) = Some l ->
    fold_left (cache_column) cols (ci, s) = (ci', s') ->
    col_text_ (this s')
    = Some (l ++ map (fun c => Some (column_text (cinfo_column_ s)
                                                 (fdata_ (this s)) ci c)) cols)%list
    /\ (forall c, In c cols ->
          col_data ci' c = column_cell (cinfo_column_ s) (fdata_ (this s)) ci c).
Proof.
  induction 1 as [|c cols Hc Hnd IH]; intros ci s ci' s' l Hl H; cbn [fold_left] in H.
  - injection H as <- <-. simpl. rewrite app_nil_r. split; [assumption|tauto].
  - destruct (cache_column_step ci s c) as (s1 & E & T & _ & _ & Fd & Mp).
    rewrite E in H. rewrite Hl in T. cbn [QList_append] in T.
    pose proof (visited_schema (cinfo_column_ s) (fdata_ (this s)) ci c)
      as (V1 & V2 & V3 & V4 & V5).
    destruct (IH _ _ _ _ _ T H) as (T' & Cells).
    pose proof (cache_loop_frame cols _ _ _ _ H) as (_&_&_&_&_&_&_&_&_&_& Out).
    rewrite Fd, Mp in T', Cells.
    split.
    + rewrite T', <- app_assoc. cbn [app map]. do 3 f_equal.
      apply map_ext_in. intros a Ha. f_equal.
      apply column_text_ext; auto. apply V4. intros ->. tauto.
    + intros a [<-|Ha].
      * rewrite Out by assumption. exact V5.
      * rewrite Cells by assumption.
        apply column_cell_ext; auto. apply V4. intros ->. tauto.
Qed.

(** ** [cacheColumnStrings] as a whole *)

Lemma cached_texts_length {X : Externals} m fd ci :
  Z.of_nat (length (cached_texts m fd ci)) = Z.max 0 (num_cols ci).
Proof. unfold cached_texts. rewrite length_map, length_seqZ. lia. Qed.

Lemma cached_texts_Some {X : Externals} m fd ci :
  Forall is_Some (cached_texts m fd ci).
Proof.
  unfold cached_texts. apply List.Forall_forall. intros o Ho.
  apply in_map_iff in Ho as (c & <- & _). eexists; reflexivity.
Qed.

Lemma cacheColumnStrings_spec {X : Externals} (ci : column_info) (s : state) :
  exists ci' s',
    cacheColumnStrings (Some ci) s = (Some ci', s')
    /\ col_text_ (this s')
       = Some (cached_texts (cinfo_column_ s) (fdata_ (this s)) ci)
    /\ lines_ (this s')
       = fold_left Z.max
           (map text_lines (cached_texts (cinfo_column_ s) (fdata_ (this s)) ci)) 1
    /\ line_count_changed_ (this s') = (1 <? lines_ (this s'))
    /\ (fdata_ (this s') = fdata_ (this s)
        /\ data_ver_ (this s') = data_ver_ (this s)
        /\ colorized_ (this s') = colorized_ (this s)
        /\ conv_ (this s') = conv_ (this s))
    /\ (cinfo_column_ s' = cinfo_column_ s
        /\ col_data_ver_ s' = col_data_ver_ s
        /\ trace s' = trace s)
    /\ (num_cols ci' = num_cols ci
        /\ col_fmt ci' = col_fmt ci
        /\ col_expr_val ci' = col_expr_val ci)
    /\ (forall c, col_data ci' c
                  = if (0 <=? c) && (c <? num_cols ci)
                    then column_cell (cinfo_column_ s) (fdata_ (this s)) ci c
                    else col_data ci c).
Proof.
  unfold cacheColumnStrings.
  set (s0 := set_this _ s).
  destruct (fold_left (cache_column) (seqZ 0 (num_cols ci)) (ci, s0))
    as [ci' s'] eqn:E.
  exists ci', s'. split; [reflexivity|].
  pose proof (cache_loop_frame _ _ _ _ _ E)
    as (F1 & F2 & F3 & F4 & F5 & F6 & F7 & F8 & F9 & F10 & F11).
  assert (Hnd : List.NoDup (seqZ 0 (num_cols ci)))
    by (apply NoDup_ListNoDup, NoDup_seqZ).
  destruct (cache_loop_texts _ Hnd ci s0 ci' s' [] eq_refl E) as (T & Cells).
  destruct (cache_loop_lines _ ci s0 ci' s' [] eq_refl E)
    as (new & T' & _ & _ & L & C).
  rewrite T in T'. injection T' as <-. cbn [app] in T.
  subst s0. simpl in *.
  repeat split; auto.
  intros c.
  destruct (Z.leb_spec 0 c); destruct (Z.ltb_spec c (num_cols ci)); simpl;
    try (apply F11; rewrite <- list_elem_of_In, elem_of_seqZ; lia).
  apply Cells. rewrite <- list_elem_of_In, elem_of_seqZ. lia.
Qed.

(** ** [dissect], path by path *)

Lemma needed_not_empty (s : state) :
  dissect_columns_needed s = false ->
  exists l, col_text_ (this s) = Some l /\ l <> []
            /\ data_ver_ (this s) = col_data_ver_ s.
Proof.
  unfold dissect_columns_needed, QList_isEmpty, QList_size. intros H.
  apply orb_false_iff in H as [H1 H2].
  destruct (col_text_ (this s)) as [l|]; [|discriminate].
  exists l. split; [reflexivity|]. split; [|lia].
  intros ->. discriminate.
Qed.

(** The record source fails: the columns are refilled from the error fill
    when they were due, the colouring is settled when it was asked for, and
    the version stamp stays as it was. *)
Lemma dissect_read_error {X : Externals} (cf : capture_file) (dc : bool) (s : state) :
  cf_read_record_r (cf_source cf) (num (fdata_ (this s))) = None ->
  exists cf' s',
    dissect (Some cf) dc s = (Some cf', s')
    /\ trace s' = (trace s ++ EvDissect dc :: EvReadRecord false
                     :: (if dissect_columns_needed s then [EvFillInError] else []))%list
    /\ (cinfo_column_ s' = cinfo_column_ s /\ col_data_ver_ s' = col_data_ver_ s)
    /\ (data_ver_ (this s') = data_ver_ (this s)
        /\ colorized_ (this s') = dc || colorized_ (this s)
        /\ fdata_ (this s')
           = (if dc then set_color_filter None (fdata_ (this s)) else fdata_ (this s))
        /\ conv_ (this s') = conv_ (this s))
    /\ (cf_source cf' = cf_source cf
        /\ num_cols (cinfo cf') = num_cols (cinfo cf)
        /\ col_fmt (cinfo cf') = col_fmt (cinfo cf)
        /\ col_expr_val (cinfo cf') = col_expr_val (cinfo cf))
    /\ (if dissect_columns_needed s then
          let ci := col_fill_in_error (cinfo cf) (fdata_ (this s)) in
          let texts := cached_texts (cinfo_column_ s) (fdata_ (this s)) ci in
          col_text_ (this s') = Some texts
          /\ lines_ (this s') = fold_left Z.max (map text_lines texts) 1
          /\ line_count_changed_ (this s') = (1 <? lines_ (this s'))
          /\ (forall c, col_data (cinfo cf') c
                        = if (0 <=? c) && (c <? num_cols (cinfo cf))
                          then column_cell (cinfo_column_ s) (fdata_ (this s)) ci c
                          else col_data (cinfo cf) c)
        else
          col_text_ (this s') = col_text_ (this s)
          /\ lines_ (this s') = lines_ (this s)
          /\ line_count_changed_ (this s') = line_count_changed_ (this s)
          /\ cf' = cf).
Proof.
  intros Hread. unfold dissect.
  set (s0 := match col_text_ (this (log (EvDissect dc) s)) with
             | Some _ => _ | None => _ end).
  assert (Hs0 : fdata_ (this s0) = fdata_ (this s)
                /\ data_ver_ (this s0) = data_ver_ (this s)
                /\ colorized_ (this s0) = colorized_ (this s)
                /\ conv_ (this s0) = conv_ (this s)
                /\ lines_ (this s0) = lines_ (this s)
                /\ line_count_changed_ (this s0) = line_count_changed_ (this s)
                /\ cinfo_column_ s0 = cinfo_column_ s
                /\ col_data_ver_ s0 = col_data_ver_ s
                /\ trace s0 = (trace s ++ [EvDissect dc])%list
                /\ QList_isEmpty (col_text_ (this s0)) = QList_isEmpty (col_text_ (this s))
                /\ (dissect_columns_needed s = false ->
                    col_text_ (this s0) = col_text_ (this s))).
  { subst s0. simpl. destruct (col_text_ (this s)) eqn:E; simpl; rewrite ?E;
      repeat split; auto.
    intros H. apply needed_not_empty in H as (l & Hl & _). congruence. }
  destruct Hs0 as (A1 & A2 & A3 & A4 & A5 & A6 & A7 & A8 & A9 & A10 & A11).
  rewrite A1, A2, A8, A10, Hread.
  change (QList_isEmpty (col_text_ (this s))
          || negb (data_ver_ (this s) =? col_data_ver_ s))
    with (dissect_columns_needed s).
  destruct (dissect_columns_needed s) eqn:Hneed.
  - cbn [option_map].
    change (fdata_ (this (log (EvReadRecord false) s0))) with (fdata_ (this s0)).
    rewrite A1.
    destruct (cacheColumnStrings_spec (col_fill_in_error (cinfo cf) (fdata_ (this s)))
                (log EvFillInError (log (EvReadRecord false) s0)))
      as (ci' & s1 & E & T & L & C & (B1 & B2 & B3 & B4) & (G1 & G2 & G3)
          & (K1 & K2 & K3) & Cells).
    rewrite E. simpl in T, L, B1, B2, B3, B4, G1, G2, G3, Cells.
    rewrite A1, A7 in *.
    eexists _, _. split; [reflexivity|].
    destruct dc; simpl; rewrite ?G3, ?A9, <- ?app_assoc; simpl;
      repeat split; auto; try congruence;
      intros c; rewrite Cells;
      destruct ((0 <=? c) && (c <? num_cols (cinfo cf))); reflexivity.
  - eexists _, _. split; [reflexivity|].
    specialize (A11 eq_refl).
    destruct dc; simpl; rewrite ?A9, <- ?app_assoc; simpl;
      repeat split; auto; try congruence.
Qed.

(** The record source delivers: the dissection engine runs once, the
    columns are refilled when they were due, and the record is stamped
    with the current generation. *)
Lemma dissect_read_ok {X : Externals} (cf : capture_file) (dc : bool) (s : state)
    (rec : wtap_rec) :
  cf_read_record_r (cf_source cf) (num (fdata_ (this s))) = Some rec ->
  exists cf' s',
    dissect (Some cf) dc s = (Some cf', s')
    /\ trace s' = (trace s ++ [EvDissect dc; EvReadRecord true;
                               EvEpanDissectRun
                                 (dissect_edt cf dc (dissect_columns_needed s))])%list
    /\ (cinfo_column_ s' = cinfo_column_ s /\ col_data_ver_ s' = col_data_ver_ s)
    /\ (data_ver_ (this s') = col_data_ver_ s
        /\ colorized_ (this s') = dc || colorized_ (this s)
        /\ num (fdata_ (this s')) = num (fdata_ (this s)))
    /\ (cf_source cf' = cf_source cf
        /\ num_cols (cinfo cf') = num_cols (cinfo cf)
        /\ col_fmt (cinfo cf') = col_fmt (cinfo cf))
    /\ (if dissect_columns_needed s then
          exists texts,
            col_text_ (this s') = Some texts
            /\ Z.of_nat (length texts) = Z.max 0 (num_cols (cinfo cf))
            /\ Forall is_Some texts
            /\ lines_ (this s') = fold_left Z.max (map text_lines texts) 1
            /\ line_count_changed_ (this s') = (1 <? lines_ (this s'))
        else
          col_text_ (this s') = col_text_ (this s)
          /\ lines_ (this s') = lines_ (this s)
          /\ line_count_changed_ (this s') = line_count_changed_ (this s)
          /\ cf' = cf).
Proof.
  intros Hread. unfold dissect.
  set (s0 := match col_text_ (this (log (EvDissect dc) s)) with
             | Some _ => _ | None => _ end).
  assert (Hs0 : fdata_ (this s0) = fdata_ (this s)
                /\ data_ver_ (this s0) = data_ver_ (this s)
                /\ colorized_ (this s0) = colorized_ (this s)
                /\ lines_ (this s0) = lines_ (this s)
                /\ line_count_changed_ (this s0) = line_count_changed_ (this s)
                /\ cinfo_column_ s0 = cinfo_column_ s
                /\ col_data_ver_ s0 = col_data_ver_ s
                /\ trace s0 = (trace s ++ [EvDissect dc])%list
                /\ QList_isEmpty (col_text_ (this s0)) = QList_isEmpty (col_text_ (this s))
                /\ (dissect_columns_needed s = false ->
                    col_text_ (this s0) = col_text_ (this s))).
  { subst s0. simpl. destruct (col_text_ (this s)) eqn:E; simpl; rewrite ?E;
      repeat split; auto.
    intros H. apply needed_not_empty in H as (l & Hl & _). congruence. }
  destruct Hs0 as (A1 & A2 & A3 & A5 & A6 & A7 & A8 & A9 & A10 & A11).
  rewrite A1, A2, A8, A10, Hread.
  change (QList_isEmpty (col_text_ (this s))
          || negb (data_ver_ (this s) =? col_data_ver_ s))
    with (dissect_columns_needed s).
  unfold dissect_edt.
  destruct (dissect_columns_needed s) eqn:Hneed.
  - destruct dc; cbn [option_map edt_session edt_create_proto_tree
                        edt_proto_tree_visible edt_color_primed edt_custom_primed];
      match goal with
      | |- context [epan_dissect_run ?e ?r ?f ?c] =>
          set (d := epan_dissect_run e r f c); clearbody d
      end;
      match goal with
      | |- context [cacheColumnStrings (Some ?ci) ?st] =>
          set (ciP := ci); set (stP := st);
          destruct (cacheColumnStrings_spec ciP stP)
            as (ci' & s1 & E & T & L & C & (B1 & B2 & B3 & B4) & (G1 & G2 & G3)
                & (K1 & K2 & K3) & _)
      end;
      rewrite E;
      (eexists _, _; split; [reflexivity|]);
      cbn [this trace cinfo_column_ col_data_ver_ set_this set_data_ver set_conv
           set_colorized data_ver_ colorized_ fdata_ col_text_ lines_
           line_count_changed_ cinfo cf_source set_cinfo from_option];
      rewrite ?G1, ?G2, ?G3, ?B1, ?B3, ?T, ?C, ?L, ?K1, ?K2;
      subst stP ciP; simpl; rewrite A9, <- ?app_assoc, ?A1, ?A3; simpl;
      (repeat split; auto);
      (eexists; split; [reflexivity|]);
      (split; [rewrite cached_texts_length; reflexivity|]);
      (split; [apply cached_texts_Some|]);
      (split; reflexivity).
  - specialize (A11 eq_refl).
    destruct dc; simpl; (eexists _, _; split; [reflexivity|]);
      simpl; rewrite ?A9, <- ?app_assoc, ?A1; simpl;
      repeat split; auto; try congruence.
Qed.

(** ** [columnString]: the guard, the hit and the miss *)

Lemma columnString_out_of_range {X : Externals} (cap_file : option capture_file)
    (column : Z) (colorized : bool) (s : state) :
  (forall cf, cap_file = Some cf -> column < 0 \/ num_cols (cinfo cf) < column) ->
  columnString cap_file column colorized s = ("", cap_file, s).
Proof.
  intros H. unfold columnString. destruct cap_file as [cf|]; [|reflexivity].
  destruct (H cf eq_refl) as [Hlt|Hgt].
  - destruct (Z.ltb_spec column 0); [reflexivity|lia].
  - destruct (Z.gtb_spec column (num_cols (cinfo cf))); [|lia].
    now rewrite orb_true_r.
Qed.

Lemma columnString_hit {X : Externals} (cf : capture_file)
    (column : Z) (colorized : bool) (s : state) :
  0 <= column <= num_cols (cinfo cf) ->
  cache_miss s column (colorized && negb (colorized_ (this s))) = false ->
  columnString (Some cf) column colorized s
  = (QList_value (col_text_ (this s)) column, Some cf, s).
Proof.
  intros Hc Hm. unfold columnString.
  destruct (Z.ltb_spec column 0); [lia|].
  destruct (Z.gtb_spec column (num_cols (cinfo cf))); [lia|]. cbn [orb].
  unfold cache_miss in Hm. rewrite Hm. reflexivity.
Qed.

Lemma columnString_miss {X : Externals} (cf : capture_file)
    (column : Z) (colorized : bool) (s : state) :
  0 <= column <= num_cols (cinfo cf) ->
  cache_miss s column (colorized && negb (colorized_ (this s))) = true ->
  columnString (Some cf) column colorized s
  = (let '(cap_file, s') :=
       dissect (Some cf) (colorized && negb (colorized_ (this s))) s in
     (QList_value (col_text_ (this s')) column, cap_file, s')).
Proof.
  intros Hc Hm. unfold columnString.
  destruct (Z.ltb_spec column 0); [lia|].
  destruct (Z.gtb_spec column (num_cols (cinfo cf))); [lia|]. cbn [orb].
  unfold cache_miss in Hm. rewrite Hm. reflexivity.
Qed.

(** A cache that covers the column and carries the current generation is
    a hit unless colouring is due. *)
Lemma cache_miss_covered (s : state) (l : list (option string)) (column : Z) :
  col_text_ (this s) = Some l ->
  0 <= column < Z.of_nat (length l) ->
  Forall is_Some l ->
  data_ver_ (this s) = col_data_ver_ s ->
  forall dc, cache_miss s column dc = dc.
Proof.
  intros Hl Hc Hs Hv dc. unfold cache_miss, QList_at, QList_size.
  rewrite Hl, Hv, Z.eqb_refl.
  destruct (Z.geb_spec column (Z.of_nat (length l))); [lia|].
  destruct (Z.ltb_spec column 0); [lia|].
  destruct (l !! Z.to_nat column) as [o|] eqn:E.
  - assert (Ho : is_Some o).
    { rewrite Forall_forall in Hs. apply Hs. eapply list_elem_of_lookup_2. exact E. }
    destruct Ho as [t ->]. reflexivity.
  - apply lookup_ge_None in E. lia.
Qed.

Lemma cache_miss_stale (s : state) (column : Z) (dc : bool) :
  data_ver_ (this s) <> col_data_ver_ s -> cache_miss s column dc = true.
Proof.
  intros H. unfold cache_miss.
  destruct (Z.eqb_spec (data_ver_ (this s)) (col_data_ver_ s)); [contradiction|].
  cbn [negb]. now rewrite orb_true_r.
Qed.

Lemma stale_needs_columns (s : state) :
  data_ver_ (this s) <> col_data_ver_ s -> dissect_columns_needed s = true.
Proof.
  intros H. unfold dissect_columns_needed.
  destruct (Z.eqb_spec (data_ver_ (this s)) (col_data_ver_ s)); [contradiction|].
  now rewrite orb_true_r.
Qed.

(** Counting events in an extended log. *)
Lemma populations_app (a b : list event) :
  populations (a ++ b) = (populations a + populations b)%nat.
Proof. unfold populations. now rewrite List.filter_app, length_app. Qed.

Lemma record_reads_app (a b : list event) :
  record_reads (a ++ b) = (record_reads a + record_reads b)%nat.
Proof. unfold record_reads. now rewrite List.filter_app, length_app. Qed.

Lemma parser_runs_app (a b : list event) :
  parser_runs (a ++ b) = (parser_runs a + parser_runs b)%nat.
Proof. unfold parser_runs. now rewrite List.filter_app, length_app. Qed.

(** The generation after a bump differs from the one before. *)
Lemma bump_changes (v : Z) : (v + 1) mod 2 ^ 32 <> v.
Proof.
  intros H. pose proof (Z.mod_pos_bound (v + 1) (2 ^ 32) ltac:(lia)) as B.
  rewrite H in B.
  destruct (Z.eq_dec (v + 1) (2 ^ 32)) as [E|E].
  - rewrite E, Z.mod_same in H by lia. lia.
  - rewrite Z.mod_small in H by lia. lia.
Qed.

(** What every pass of [dissect] over a capture file does, whichever way
    the read goes. *)
Lemma dissect_summary {X : Externals} (cf : capture_file) (dc : bool) (s : state) :
  exists cf' s',
    dissect (Some cf) dc s = (Some cf', s')
    /\ (populations (trace s') = S (populations (trace s))
        /\ record_reads (trace s') = S (record_reads (trace s))
        /\ parser_runs (trace s')
           = (parser_runs (trace s)
              + match cf_read_record_r (cf_source cf) (num (fdata_ (this s))) with
                | Some _ => 1 | None => 0 end)%nat)
    /\ (cinfo_column_ s' = cinfo_column_ s /\ col_data_ver_ s' = col_data_ver_ s)
    /\ (colorized_ (this s') = dc || colorized_ (this s)
        /\ num (fdata_ (this s')) = num (fdata_ (this s))
        /\ data_ver_ (this s')
           = match cf_read_record_r (cf_source cf) (num (fdata_ (this s))) with
             | Some _ => col_data_ver_ s | None => data_ver_ (this s) end)
    /\ (cf_source cf' = cf_source cf
        /\ num_cols (cinfo cf') = num_cols (cinfo cf)
        /\ col_fmt (cinfo cf') = col_fmt (cinfo cf))
    /\ (if dissect_columns_needed s then
          exists texts,
            col_text_ (this s') = Some texts
            /\ Z.of_nat (length texts) = Z.max 0 (num_cols (cinfo cf))
            /\ Forall is_Some texts
            /\ lines_ (this s') = fold_left Z.max (map text_lines texts) 1
            /\ line_count_changed_ (this s') = (1 <? lines_ (this s'))
        else
          col_text_ (this s') = col_text_ (this s)
          /\ lines_ (this s') = lines_ (this s)
          /\ line_count_changed_ (this s') = line_count_changed_ (this s)
          /\ cf' = cf).
Proof.
  destruct (cf_read_record_r (cf_source cf) (num (fdata_ (this s)))) as [rec|] eqn:R.
  - destruct (dissect_read_ok cf dc s rec R)
      as (cf' & s' & E & T & G & (V & C & N) & K & P).
    exists cf', s'. split; [exact E|].
    rewrite T, populations_app, record_reads_app, parser_runs_app.
    repeat split; try tauto;
      unfold populations, record_reads, parser_runs; simpl; lia.
  - destruct (dissect_read_error cf dc s R)
      as (cf' & s' & E & T & G & (V & C & F & _) & (K1 & K2 & K3 & _) & P).
    exists cf', s'. split; [exact E|].
    rewrite T, populations_app, record_reads_app, parser_runs_app.
    split; [|split; [exact G|split; [|split; [tauto|]]]].
    + unfold populations, record_reads, parser_runs.
      destruct (dissect_columns_needed s); simpl; lia.
    + rewrite F. destruct dc; simpl; tauto.
    + destruct (dissect_columns_needed s).
      * destruct P as (P1 & P2 & P3 & _). eexists. split; [exact P1|].
        split; [rewrite cached_texts_length; reflexivity|].
        split; [apply cached_texts_Some|]. tauto.
      * tauto.
Qed.

(** The line count after a fold from 1 is at least 1. *)
Lemma lines_from_one (l : list Z) : 1 <= fold_left Z.max l 1.
Proof. apply fold_max_ge. Qed.

Lemma dissect_lines {X : Externals} (cap_file : option capture_file) (dc : bool)
    (s : state) :
  1 <= lines_ (this s) -> 1 <= lines_ (this (snd (dissect cap_file dc s))).
Proof.
  intros H. destruct cap_file as [cf|].
  - destruct (dissect_summary cf dc s) as (cf' & s' & E & _ & _ & _ & _ & P).
    rewrite E. cbn [snd].
    destruct (dissect_columns_needed s).
    + destruct P as (texts & _ & _ & _ & L & _). rewrite L. apply lines_from_one.
    + destruct P as (_ & L & _). lia.
  - unfold dissect. destruct (col_text_ (this (log (EvDissect dc) s))); simpl; exact H.
Qed.

Lemma columnString_lines {X : Externals} (cap_file : option capture_file)
    (column : Z) (colorized : bool) (s : state) :
  1 <= lines_ (this s) ->
  1 <= lines_ (this (snd (columnString cap_file column colorized s))).
Proof.
  intros H. unfold columnString. destruct cap_file as [cf|]; [|exact H].
  destruct ((column <? 0) || (column >? num_cols (cinfo cf))); [exact H|].
  match goal with |- context [if ?c then _ else _] => destruct c end; [|exact H].
  pose proof (dissect_lines (Some cf) (colorized && negb (colorized_ (this s))) s H) as D.
  destruct (dissect (Some cf) (colorized && negb (colorized_ (this s))) s).
  exact D.
Qed.

Lemma resetColumns_this {X : Externals} (cinfo : option column_info) (s : state) :
  this (resetColumns cinfo s) = this s
  /\ trace (resetColumns cinfo s) = trace s
  /\ col_data_ver_ (resetColumns cinfo s) = (col_data_ver_ s + 1) mod 2 ^ 32.
Proof.
  unfold resetColumns. destruct cinfo as [ci|]; [|repeat split].
  destruct (fold_left _ _ _). repeat split.
Qed.

(** A pass that refills the columns, or runs over a coherent cache that
    already covers them, leaves a cache that covers them. *)
Lemma dissect_covers {X : Externals} (cf : capture_file) (dc : bool) (s : state) :
  cache_coherent s cf -> 0 < num_cols (cinfo cf) ->
  exists cf' s',
    dissect (Some cf) dc s = (Some cf', s')
    /\ num_cols (cinfo cf') = num_cols (cinfo cf)
    /\ cf_source cf' = cf_source cf
    /\ num (fdata_ (this s')) = num (fdata_ (this s))
    /\ col_data_ver_ s' = col_data_ver_ s
    /\ colorized_ (this s') = dc || colorized_ (this s)
    /\ (exists l, col_text_ (this s') = Some l
                  /\ Z.of_nat (length l) = num_cols (cinfo cf)
                  /\ Forall is_Some l)
    /\ data_ver_ (this s')
       = match cf_read_record_r (cf_source cf) (num (fdata_ (this s))) with
         | Some _ => col_data_ver_ s | None => data_ver_ (this s) end
    /\ parser_runs (trace s')
       = (parser_runs (trace s)
          + match cf_read_record_r (cf_source cf) (num (fdata_ (this s))) with
            | Some _ => 1 | None => 0 end)%nat.
Proof.
  intros Hcoh Hn.
  destruct (dissect_summary cf dc s)
    as (cf' & s' & E & (_ & _ & Q) & (_ & G) & (C & N & V) & (K1 & K2 & _) & T).
  exists cf', s'. repeat split; auto.
  destruct (dissect_columns_needed s) eqn:Hneed.
  - destruct T as (texts & T1 & T2 & T3 & _). exists texts. repeat split; auto. lia.
  - destruct T as (T1 & _ & _ & ->).
    destruct (needed_not_empty s Hneed) as (l & Hl & Hne & Hv).
    destruct (Hcoh l Hl Hne Hv) as (Hlen & Hs).
    exists l. rewrite T1. auto.
Qed.

(** ** The invariant of the data model

    [cache_coherent] holds of a new record and is kept by every read and by
    [resetColorized]; [resetColumns] keeps it as long as the bumped
    generation does not run into the stamp of the record (which takes 2^32
    schema changes). *)

Lemma new_record_coherent (fd : frame_data) m v tr (cf : capture_file) :
  cache_coherent (mk_state (PacketListRecord_new fd) m v tr) cf.
Proof. intros l Hl. discriminate. Qed.

Lemma dissect_keeps_coherent {X : Externals} (cf : capture_file) (dc : bool) (s : state) :
  cache_coherent s cf ->
  exists cf' s',
    dissect (Some cf) dc s = (Some cf', s') /\ cache_coherent s' cf'.
Proof.
  intros Hcoh.
  destruct (dissect_summary cf dc s)
    as (cf' & s' & E & _ & (_ & G) & (_ & _ & V) & (_ & K & _) & T).
  exists cf', s'. split; [exact E|].
  intros l Hl Hne Hv. rewrite K.
  destruct (dissect_columns_needed s) eqn:Hneed.
  - destruct T as (texts & T1 & T2 & T3 & _).
    rewrite T1 in Hl. injection Hl as <-. split; [|exact T3].
    destruct texts; [contradiction|]. simpl length in *. lia.
  - destruct T as (T1 & _ & _ & _).
    destruct (needed_not_empty s Hneed) as (l0 & Hl0 & Hne0 & Hv0).
    rewrite T1, Hl0 in Hl. injection Hl as <-.
    exact (Hcoh l0 Hl0 Hne0 Hv0).
Qed.

Lemma columnString_keeps_coherent {X : Externals} (cf : capture_file)
    (column : Z) (colorized : bool) (s : state) :
  cache_coherent s cf ->
  exists cf',
    snd (fst (columnString (Some cf) column colorized s)) = Some cf'
    /\ cache_coherent (snd (columnString (Some cf) column colorized s)) cf'.
Proof.
  intros Hcoh. unfold columnString.
  destruct ((column <? 0) || (column >? num_cols (cinfo cf)));
    [exists cf; split; [reflexivity|exact Hcoh]|].
  match goal with |- context [if ?c then _ else _] => destruct c end;
    [|exists cf; split; [reflexivity|exact Hcoh]].
  destruct (dissect_keeps_coherent cf (colorized && negb (colorized_ (this s))) s Hcoh)
    as (cf' & s' & E & H).
  rewrite E. exists cf'. split; [reflexivity|exact H].
Qed.

Lemma resetColorized_keeps_coherent (cf : capture_file) (s : state) :
  cache_coherent s cf -> cache_coherent (resetColorized s) cf.
Proof. intros H. exact H. Qed.

Lemma resetColumns_keeps_coherent {X : Externals} (cinfo : option column_info)
    (cf : capture_file) (s : state) :
  data_ver_ (this s) <> (col_data_ver_ s + 1) mod 2 ^ 32 ->
  cache_coherent (resetColumns cinfo s) cf.
Proof.
  intros Hv l Hl Hne Hcur.
  destruct (resetColumns_this cinfo s) as (A & _ & C).
  rewrite A, C in Hcur. contradiction.
Qed.

(** A first successful read of a valid column leaves the cache current. *)
Lemma columnString_populates {X : Externals} (cf : capture_file)
    (column : Z) (colorized : bool) (s : state) (rec : wtap_rec) :
  cache_coherent s cf ->
  0 <= column < num_cols (cinfo cf) ->
  cf_read_record_r (cf_source cf) (num (fdata_ (this s))) = Some rec ->
  cache_miss s column (colorized && negb (colorized_ (this s))) = true ->
  exists cf',
    snd (fst (columnString (Some cf) column colorized s)) = Some cf'
    /\ cache_current (snd (columnString (Some cf) column colorized s)) cf'
    /\ colorized_ (this (snd (columnString (Some cf) column colorized s)))
       = colorized || colorized_ (this s).
Proof.
  intros Hcoh Hc R M.
  rewrite (columnString_miss cf column colorized s ltac:(lia) M).
  destruct (dissect_covers cf (colorized && negb (colorized_ (this s))) s Hcoh
              ltac:(lia))
    as (cf' & s' & E & K1 & _ & _ & G & C & (l & Hl & Hlen & Hs) & V & _).
  rewrite E. cbn [fst snd]. exists cf'. split; [reflexivity|]. split.
  - exists l. rewrite K1, V, R, G. auto.
  - rewrite C. destruct colorized, (colorized_ (this s)); reflexivity.
Qed.

(** ** Further lemmas on reads and populations *)

Lemma cache_miss_current (s : state) (cf : capture_file) (column : Z) (dc : bool) :
  cache_current s cf -> 0 <= column < num_cols (cinfo cf) ->
  cache_miss s column dc = dc.
Proof.
  intros (l & Hl & Hlen & Hs & Hv) Hc.
  apply (cache_miss_covered s l column Hl); auto. lia.
Qed.

Lemma demo_populated_current : cache_current DemoRuns.populated Demo.cf2.
Proof.
  eexists. split; [vm_compute; reflexivity|].
  split; [reflexivity|]. split; [|reflexivity].
  repeat constructor; eexists; reflexivity.
Defined.

Lemma text_lines_ge_1 (o : option string) : 1 <= text_lines o.
Proof. destruct o; simpl; [pose proof (newline_count_nonneg s)|]; lia. Qed.

Lemma reachable_lines {X : Externals} (s : state) :
  reachable s -> 1 <= lines_ (this s).
Proof.
  induction 1 as [fd m v tr | s cap_file column colorized _ IH | s cinfo _ IH | s _ IH].
  - simpl. lia.
  - now apply columnString_lines.
  - destruct (resetColumns_this cinfo s) as (A & _). now rewrite A.
  - exact IH.
Qed.

(** A pass over a cache that is current leaves it current: the texts are
    kept and the stamp still equals the generation. *)
Lemma dissect_keeps_current {X : Externals} (cf : capture_file) (dc : bool) (s : state) :
  cache_current s cf -> 0 < num_cols (cinfo cf) ->
  exists s',
    dissect (Some cf) dc s = (Some cf, s')
    /\ cache_current s' cf
    /\ col_text_ (this s') = col_text_ (this s)
    /\ colorized_ (this s') = dc || colorized_ (this s)
    /\ populations (trace s') = S (populations (trace s))
    /\ (parser_runs (trace s') <= S (parser_runs (trace s)))%nat.
Proof.
  intros (l & Hl & Hlen & Hs & Hv) Hn.
  assert (Hneed : dissect_columns_needed s = false).
  { unfold dissect_columns_needed, QList_isEmpty, QList_size.
    rewrite Hl, Hv, Z.eqb_refl. destruct (Z.eqb_spec (Z.of_nat (length l)) 0); [lia|].
    reflexivity. }
  destruct (dissect_summary cf dc s)
    as (cf' & s' & E & (P & _ & Q) & (_ & G) & (C & _ & V) & _ & T).
  rewrite Hneed in T. destruct T as (T1 & _ & _ & ->).
  exists s'. split; [exact E|]. split.
  - exists l. rewrite T1, G. repeat split; auto.
    rewrite V. destruct (cf_read_record_r _ _); congruence.
  - repeat split; auto. rewrite Q. destruct (cf_read_record_r _ _); lia.
Qed.

(** ** Reading a cached text back *)

Lemma lookup_map {A B} (f : A -> B) (l : list A) (i : nat) :
  map f l !! i = option_map f (l !! i).
Proof.
  revert i. induction l as [|a l IH]; intros [|i]; simpl; auto.
Qed.

Lemma cached_texts_at {X : Externals} m fd ci (column : Z) :
  0 <= column < num_cols ci ->
  QList_at (Some (cached_texts m fd ci)) column
  = Some (column_text m fd ci column).
Proof.
  intros Hc. unfold QList_at, cached_texts.
  destruct (Z.ltb_spec column 0); [lia|].
  rewrite lookup_map, lookup_seqZ_lt by lia. simpl.
  now rewrite Z2Nat.id by lia.
Qed.

(** The error fill followed by the column loop is stable: run again on the
    column information it left behind, it chooses the same text. *)
Lemma error_fill_text_stable {X : Externals} m fd fd' ci ci1 (c : Z) :
  num fd' = num fd ->
  num_cols ci1 = num_cols ci ->
  col_fmt ci1 = col_fmt ci ->
  col_expr_val ci1 = col_expr_val ci ->
  0 <= c < num_cols ci ->
  col_data ci1 c = column_cell m fd (col_fill_in_error ci fd) c ->
  column_text m fd' (col_fill_in_error ci1 fd') c
  = column_text m fd (col_fill_in_error ci fd) c.
Proof.
  intros Hnum Hn Hf He Hc Hd.
  unfold column_text, column_cell, uses_unresolved, col_fill_in_frame_data,
    col_fill_in_error in *.
  cbn [col_expr_val col_fmt col_data num_cols set_col_data] in *.
  rewrite Hnum, Hn, Hf, He in *.
  destruct (Z.leb_spec 0 c); [|lia]. destruct (Z.ltb_spec c (num_cols ci)); [|lia].
  cbn [andb] in *.
  destruct (get_column_resolved c); cbn [negb andb] in *.
  - destruct (default (-1) (m !! c) <? 0);
      destruct (col_fill_in_frame_data_text (num fd) (col_fmt ci c));
      cbn [col_data set_col_data] in *; unfold upd in *; rewrite ?Z.eqb_refl in *;
      destruct (Z.leb_spec 0 c); try lia;
      destruct (Z.ltb_spec c (num_cols ci)); try lia; cbn [andb] in *;
      destruct (col_fill_in_error_text (num fd) (col_fmt ci c)); congruence.
  - destruct (col_expr_val ci c); [reflexivity|].
    destruct (default (-1) (m !! c) <? 0);
      destruct (col_fill_in_frame_data_text (num fd) (col_fmt ci c));
      cbn [col_data set_col_data] in *; unfold upd in *; rewrite ?Z.eqb_refl in *;
      destruct (Z.leb_spec 0 c); try lia;
      destruct (Z.ltb_spec c (num_cols ci)); try lia; cbn [andb] in *;
      destruct (col_fill_in_error_text (num fd) (col_fmt ci c)); congruence.
Qed.

(** Where the error fill writes a marker into a cell and the text is taken
    from that cell, the text is the marker. *)
Lemma error_fill_marker {X : Externals} m fd ci (c : Z) (marker : string) :
  0 <= c < num_cols ci ->
  col_fill_in_error_text (num fd) (col_fmt ci c) = Some marker ->
  get_column_resolved c = true \/ col_expr_val ci c = None ->
  0 <= default (-1) (m !! c)
  \/ col_fill_in_frame_data_text (num fd) (col_fmt ci c) = None ->
  column_text m fd (col_fill_in_error ci fd) c = marker.
Proof.
  intros Hc Hm Hres Hfd.
  assert (Hcell : col_data (col_fill_in_error ci fd) c = marker).
  { unfold col_fill_in_error. cbn [col_data set_col_data]. rewrite Hm.
    destruct (Z.leb_spec 0 c); [|lia]. destruct (Z.ltb_spec c (num_cols ci)); [|lia].
    reflexivity. }
  assert (Hcc : column_cell m fd (col_fill_in_error ci fd) c = marker).
  { unfold column_cell.
    destruct (uses_unresolved (col_fill_in_error ci fd) c); [exact Hcell|].
    destruct Hfd as [Hfd|Hfd].
    - destruct (Z.ltb_spec (default (-1) (m !! c)) 0); [lia|exact Hcell].
    - unfold col_fill_in_frame_data.
      change (col_fmt (col_fill_in_error ci fd) c) with (col_fmt ci c).
      rewrite Hfd. destruct (default (-1) (m !! c) <? 0); exact Hcell. }
  unfold column_text.
  change (col_expr_val (col_fill_in_error ci fd) c) with (col_expr_val ci c).
  destruct Hres as [-> | ->]; [exact Hcc|].
  destruct (get_column_resolved c); exact Hcc.
Qed.

Lemma columnString_current_hit {X : Externals} (cf : capture_file) (s : state)
    (column : Z) (colorized : bool) :
  cache_current s cf ->
  0 <= column < num_cols (cinfo cf) ->
  colorized && negb (colorized_ (this s)) = false ->
  columnString (Some cf) column colorized s
  = (QList_value (col_text_ (this s)) column, Some cf, s).
Proof.
  intros Hcur Hc Hdc. apply columnString_hit; [lia|].
  rewrite (cache_miss_current s cf column _ Hcur Hc). exact Hdc.
Qed.

Lemma colour_settled (colorized c : bool) :
  colorized && negb (colorized && negb c || c) = false.
Proof. destruct colorized, c; reflexivity. Qed.

(** * The claims *)

(** C1 (as stated, refuted).  Frame 2 cannot be read.  Its Info column is
    read without colouring on a fresh record: the population runs and the
    text is the error marker, but [colorized_] is still false afterwards,
    and the identical second read goes to the record source again. *)
Lemma read_failure_counterexample :
  let r1 := columnString (X := Demo.ext) (Some Demo.cf2) 1 false (Demo.fresh 2) in
  let r2 := columnString (X := Demo.ext) (snd (fst r1)) 1 false (snd r1) in
  @cf_read_record_r Demo.ext (cf_source Demo.cf2) (num (fdata_ (this (Demo.fresh 2))))
  = None
  /\ populations (trace (snd r1)) = S (populations (trace (Demo.fresh 2)))
  /\ colorized_ (this (snd r1)) = false
  /\ record_reads (trace (snd r2)) = S (record_reads (trace (snd r1)))
  /\ ~ (fst (fst r1) <> ""
        /\ color_filter (fdata_ (this (snd r1))) = None
        /\ colorized_ (this (snd r1)) = true
        /\ record_reads (trace (snd r2)) = record_reads (trace (snd r1))).
Proof.
  cbv zeta. split; [reflexivity|]. split; [vm_compute; reflexivity|].
  split; [vm_compute; reflexivity|]. split; [vm_compute; reflexivity|].
  intros (_ & _ & H & _). vm_compute in H. discriminate.
Qed.

(** C1 (amended).  A population that hits a read failure completes
    without running the dissection engine.  When the columns were due they
    are refilled from the error fill, so a column for which the error fill
    writes a marker, and whose text is taken from that cell, holds the
    marker.  When colouring was part of the pass, the colour filter of the
    frame is cleared and [colorized_] is set; otherwise both stay as they
    were.  When the stamp already equalled the generation, the same read
    repeated is served from the cache and the record source is not called
    again. *)
Theorem read_failure_population {X : Externals} (cf : capture_file) (s : state)
    (column : Z) (colorized : bool) :
  0 <= column < num_cols (cinfo cf) ->
  cf_read_record_r (cf_source cf) (num (fdata_ (this s))) = None ->
  cache_miss s column (colorized && negb (colorized_ (this s))) = true ->
  let dc := colorized && negb (colorized_ (this s)) in
  let r1 := columnString (Some cf) column colorized s in
  (populations (trace (snd r1)) = S (populations (trace s))
   /\ parser_runs (trace (snd r1)) = parser_runs (trace s))
  /\ (dissect_columns_needed s = true ->
      forall c marker,
        0 <= c < num_cols (cinfo cf) ->
        col_fill_in_error_text (num (fdata_ (this s))) (col_fmt (cinfo cf) c)
        = Some marker ->
        marker <> "" ->
        get_column_resolved c = true \/ col_expr_val (cinfo cf) c = None ->
        0 <= default (-1) (cinfo_column_ s !! c)
        \/ col_fill_in_frame_data_text (num (fdata_ (this s))) (col_fmt (cinfo cf) c)
           = None ->
        QList_value (col_text_ (this (snd r1))) c = marker
        /\ QList_value (col_text_ (this (snd r1))) c <> "")
  /\ (colorized_ (this (snd r1)) = dc || colorized_ (this s)
      /\ fdata_ (this (snd r1))
         = if dc then set_color_filter None (fdata_ (this s)) else fdata_ (this s))
  /\ (cache_coherent s cf ->
      data_ver_ (this s) = col_data_ver_ s ->
      let r2 := columnString (snd (fst r1)) column colorized (snd r1) in
      snd r2 = snd r1
      /\ fst (fst r2) = fst (fst r1)
      /\ record_reads (trace (snd r2)) = record_reads (trace (snd r1))).
Proof.
  intros Hc R M. cbv zeta.
  rewrite (columnString_miss cf column colorized s ltac:(lia) M).
  set (dc := colorized && negb (colorized_ (this s))) in *.
  destruct (dissect_read_error cf dc s R)
    as (cf' & s' & E & Tr & (M1 & G) & (V & C & F & _) & (K1 & K2 & K3 & K4) & P).
  rewrite E. cbn [fst snd].
  split; [|split; [|split; [split; assumption|]]].
  - rewrite Tr, populations_app, parser_runs_app.
    unfold populations, parser_runs.
    destruct (dissect_columns_needed s); simpl; repeat split; auto; lia.
  - intros Hneed c marker Hcr Hm Hne Hres Hfd.
    rewrite Hneed in P. cbv zeta in P. destruct P as (T & _).
    assert (Ht : QList_value (col_text_ (this s')) c = marker);
      [|split; congruence].
    rewrite T. unfold QList_value.
    rewrite cached_texts_at by (cbn [num_cols col_fill_in_error set_col_data]; lia).
    apply error_fill_marker; assumption.
  - intros Hcoh Hv.
    destruct (dissect_covers cf dc s Hcoh ltac:(lia))
      as (cf1 & s1 & E1 & N1 & _ & _ & G1 & C1 & (l & Hl & Hlen & Hs) & V1 & _).
    rewrite E in E1. injection E1 as <- <-.
    rewrite columnString_current_hit; [cbn [fst snd]; auto|..].
    + exists l. repeat split; auto; [lia|]. rewrite V1, R. congruence.
    + lia.
    + rewrite C1. subst dc. apply colour_settled.
Qed.

Lemma read_failure_population_witness :
  (let r1 := columnString (X := Demo.ext) (Some Demo.cf2) 1 true (Demo.fresh 2) in
   QList_value (col_text_ (this (snd r1))) 1 = "Read error"
   /\ colorized_ (this (snd r1)) = true)
  /\ (let r1 := columnString (X := Demo.unreadable) (Some Demo.cf2) 1 true
                 DemoRuns.populated in
      let r2 := columnString (X := Demo.unreadable) (snd (fst r1)) 1 true (snd r1) in
      record_reads (trace (snd r2)) = record_reads (trace (snd r1))).
Proof.
  split.
  - destruct (read_failure_population (X := Demo.ext) Demo.cf2 (Demo.fresh 2) 1 true)
      as (_ & A & (B & _) & _).
    + simpl. lia.
    + reflexivity.
    + vm_compute. reflexivity.
    + split; [|exact B].
      apply (A eq_refl 1 "Read error").
      * simpl. lia.
      * reflexivity.
      * discriminate.
      * left. reflexivity.
      * left. vm_compute. discriminate.
  - destruct (read_failure_population (X := Demo.unreadable) Demo.cf2
                DemoRuns.populated 1 true)
      as (_ & _ & _ & A).
    + simpl. lia.
    + reflexivity.
    + vm_compute. reflexivity.
    + apply A; [|reflexivity].
      intros l Hl _ _. vm_compute in Hl. injection Hl as <-.
      split; [reflexivity|repeat constructor; eexists; reflexivity].
Defined.

(** C2 (the code departs from the claim).  With two columns displayed,
    [columnString] for column 2, the column count, on a record that has no
    cache yet: the result is empty, but the guard lets the index through,
    a population runs (the record is read and dissected) and [col_text_]
    goes from null to the two cached texts. *)
Theorem columnString_at_column_count :
  num_cols (cinfo Demo.cf2) = 2
  /\ col_text_ (this (Demo.fresh 1)) = None
  /\ fst (fst (columnString (X := Demo.ext) (Some Demo.cf2) 2 false (Demo.fresh 1))) = ""
  /\ col_text_
       (this (snd (columnString (X := Demo.ext) (Some Demo.cf2) 2 false (Demo.fresh 1))))
     = Some [Some "1"; Some (Demo.info_text 1)]
  /\ populations
       (trace (snd (columnString (X := Demo.ext) (Some Demo.cf2) 2 false (Demo.fresh 1))))
     = 1%nat
  /\ populations (trace (Demo.fresh 1)) = 0%nat.
Proof. vm_compute. repeat split. Qed.

(** The same for every record whose cache has at most one entry per
    column: the index equal to the column count always runs a population. *)
Lemma columnString_column_count_misses {X : Externals} (cf : capture_file)
    (colorized : bool) (s : state) :
  0 <= num_cols (cinfo cf) ->
  QList_size (col_text_ (this s)) <= num_cols (cinfo cf) ->
  populations
    (trace (snd (columnString (Some cf) (num_cols (cinfo cf)) colorized s)))
  = S (populations (trace s)).
Proof.
  intros Hn Hsz.
  rewrite columnString_miss; [|lia|].
  - destruct (dissect_summary cf (colorized && negb (colorized_ (this s))) s)
      as (cf' & s' & E & (P & _) & _).
    rewrite E. exact P.
  - unfold cache_miss.
    destruct (Z.geb_spec (num_cols (cinfo cf)) (QList_size (col_text_ (this s))));
      [|lia].
    now rewrite orb_true_r.
Qed.

(** C3 (as stated, refuted).  Frame 1 is populated twice with the same
    three-line Info text, the second time after a schema reset: the line
    count is 3 both times, yet the flag is set after the second population. *)
Lemma line_count_changed_counterexample :
  let s1 := DemoRuns.populated in
  let s2 := snd (columnString (X := Demo.ext) DemoRuns.populated_cf 1 false
                   (resetColumns (X := Demo.ext) (Some Demo.cinfo2) s1)) in
  populations (trace s2) = S (populations (trace s1))
  /\ ~ (line_count_changed_ (this s2) = true
        <-> lines_ (this s2) <> lines_ (this s1)).
Proof.
  cbv zeta. split; [vm_compute; reflexivity|].
  assert (A : line_count_changed_
                (this (snd (columnString (X := Demo.ext) DemoRuns.populated_cf 1 false
                              (resetColumns (X := Demo.ext) (Some Demo.cinfo2)
                                            DemoRuns.populated)))) = true)
    by (vm_compute; reflexivity).
  assert (B : lines_
                (this (snd (columnString (X := Demo.ext) DemoRuns.populated_cf 1 false
                              (resetColumns (X := Demo.ext) (Some Demo.cinfo2)
                                            DemoRuns.populated))))
              = lines_ (this DemoRuns.populated))
    by (vm_compute; reflexivity).
  intros [H _]. exact (H A B).
Qed.

(** C3 (amended).  After every column population [line_count_changed_] is
    true exactly when the new [lines_] differs from 1, the value it is reset
    to when the population starts; the value held before the population
    plays no part.  A second population that arrives at the same line count
    leaves the flag as the first one set it. *)
Theorem line_count_changed_iff_multiline {X : Externals} (ci : column_info) (s : state) :
  let s' := snd (cacheColumnStrings (Some ci) s) in
  (line_count_changed_ (this s') = true <-> lines_ (this s') <> 1)
  /\ (forall ci2,
        let s'' := snd (cacheColumnStrings (Some ci2) s') in
        lines_ (this s'') = lines_ (this s') ->
        line_count_changed_ (this s'') = line_count_changed_ (this s')).
Proof.
  cbv zeta.
  destruct (cacheColumnStrings_spec ci s) as (ci' & s' & E & _ & L & C & _).
  rewrite E. cbn [snd].
  pose proof (lines_from_one
                (map text_lines (cached_texts (cinfo_column_ s) (fdata_ (this s)) ci)))
    as G. rewrite <- L in G.
  split.
  - rewrite C. destruct (Z.ltb_spec 1 (lines_ (this s'))); split; intros; try lia;
      try reflexivity; discriminate.
  - intros ci2.
    destruct (cacheColumnStrings_spec ci2 s') as (ci'' & s'' & E2 & _ & _ & C2 & _).
    rewrite E2. cbn [snd]. intros Heq. rewrite C2, C, Heq. reflexivity.
Qed.

Lemma line_count_changed_iff_multiline_witness :
  lines_ (this (snd (cacheColumnStrings (X := Demo.ext) (Some DemoRuns.populated_cinfo)
                       DemoRuns.populated))) = 3
  /\ line_count_changed_
       (this (snd (cacheColumnStrings (X := Demo.ext) (Some DemoRuns.populated_cinfo)
                     (snd (cacheColumnStrings (X := Demo.ext) (Some DemoRuns.populated_cinfo)
                             DemoRuns.populated)))))
     = line_count_changed_
         (this (snd (cacheColumnStrings (X := Demo.ext) (Some DemoRuns.populated_cinfo)
                       DemoRuns.populated))).
Proof.
  split; [vm_compute; reflexivity|].
  apply (proj2 (line_count_changed_iff_multiline (X := Demo.ext) DemoRuns.populated_cinfo
                  DemoRuns.populated)
               DemoRuns.populated_cinfo).
  vm_compute. reflexivity.
Defined.

(** C4.  After every column population [lines_] is the maximum, over the
    cached column texts, of the number of newline characters plus one, and
    1 when no column is displayed; in particular it is 3 when some column
    has exactly two newlines and none has more.  Moreover [lines_ >= 1] in
    every state a record can be in, from its construction on. *)
Theorem line_count_is_column_maximum {X : Externals} :
  (forall ci s,
      let s' := snd (cacheColumnStrings (Some ci) s) in
      exists texts,
        col_text_ (this s') = Some texts
        /\ Z.of_nat (length texts) = Z.max 0 (num_cols ci)
        /\ Forall is_Some texts
        /\ (forall t, In (Some t) texts -> newline_count t + 1 <= lines_ (this s'))
        /\ (texts = [] /\ lines_ (this s') = 1
            \/ exists t, In (Some t) texts /\ lines_ (this s') = newline_count t + 1)
        /\ ((exists t, In (Some t) texts /\ newline_count t = 2) ->
            (forall t, In (Some t) texts -> newline_count t <= 2) ->
            lines_ (this s') = 3))
  /\ (forall fd m v tr, lines_ (this (mk_state (PacketListRecord_new fd) m v tr)) = 1)
  /\ (forall s, reachable s -> 1 <= lines_ (this s)).
Proof.
  split; [|split; [reflexivity|apply reachable_lines]].
  intros ci s. cbv zeta.
  destruct (cacheColumnStrings_spec ci s) as (ci' & s' & E & T & L & _).
  rewrite E. cbn [snd].
  set (texts := cached_texts (cinfo_column_ s) (fdata_ (this s)) ci) in *.
  assert (Hsome : Forall is_Some texts) by apply cached_texts_Some.
  assert (Hub : forall t, In (Some t) texts -> newline_count t + 1 <= lines_ (this s')).
  { intros t Ht. rewrite L.
    apply (fold_max_upper (map text_lines texts) 1 (text_lines (Some t))).
    apply in_map. exact Ht. }
  assert (Hatt : texts = [] /\ lines_ (this s') = 1
                 \/ exists t, In (Some t) texts /\ lines_ (this s') = newline_count t + 1).
  { destruct (fold_max_attained (map text_lines texts) 1) as [H1|Hin].
    - rewrite <- L in H1. destruct texts as [|o texts'] eqn:Et; [left; auto|].
      right. inversion Hsome as [|? ? [t ->] _]; subst.
      exists t. split; [left; reflexivity|].
      pose proof (Hub t (or_introl eq_refl)). pose proof (newline_count_nonneg t). lia.
    - rewrite <- L in Hin. apply in_map_iff in Hin as (o & Ho & Hin).
      right. rewrite Forall_forall in Hsome.
      destruct (Hsome o) as [t ->]; [now apply list_elem_of_In|].
      exists t. split; [exact Hin|]. simpl in Ho. lia. }
  exists texts. split; [exact T|]. split; [apply cached_texts_length|].
  split; [exact Hsome|]. split; [exact Hub|]. split; [exact Hatt|].
  intros (t & Ht & H2) Hle.
  destruct Hatt as [[-> _]|(t' & Ht' & Ht'')]; [destruct Ht|].
  pose proof (Hub t Ht). pose proof (Hle t' Ht'). lia.
Qed.

Lemma line_count_is_column_maximum_witness :
  lines_ (this (snd (cacheColumnStrings (X := Demo.ext) (Some DemoRuns.populated_cinfo)
                       DemoRuns.populated))) = 3
  /\ 1 <= lines_ (this (resetColorized DemoRuns.populated)).
Proof.
  split.
  - destruct (proj1 (line_count_is_column_maximum (X := Demo.ext))
                DemoRuns.populated_cinfo DemoRuns.populated)
      as (texts & T & _ & _ & _ & _ & H).
    apply H.
    + exists (Demo.info_text 1).
      assert (E : texts = [Some "1"; Some (Demo.info_text 1)])
        by (vm_compute in T; vm_compute; congruence).
      rewrite E. split; [right; left; reflexivity|vm_compute; reflexivity].
    + assert (E : texts = [Some "1"; Some (Demo.info_text 1)])
        by (vm_compute in T; vm_compute; congruence).
      rewrite E. intros t [Ht|[Ht|[]]]; injection Ht as <-; vm_compute; discriminate.
  - apply (proj2 (proj2 (line_count_is_column_maximum (X := Demo.ext)))).
    apply reach_resetColorized.
    apply (reach_columnString (X := Demo.ext) _ (Some Demo.cf2) 1 false).
    apply (reach_resetColumns (X := Demo.ext) _ (Some Demo.cinfo2)).
    apply reach_new.
Defined.

(** C5 (the code departs from the claim).  Frame 2 cannot be read.  Its
    Info column is read without colouring (the population goes through the
    error path and caches the two texts), then with colouring, then without
    again.  The coloured read runs one population and leaves the record
    colourised, as claimed; but the stamp is still not the generation, and
    the uncoloured read that follows runs a population again and reads the
    record a third time. *)
Theorem colorize_downgrade_after_read_failure :
  let r0 := columnString (X := Demo.ext) (Some Demo.cf2) 1 false (Demo.fresh 2) in
  let r1 := columnString (X := Demo.ext) (snd (fst r0)) 1 true (snd r0) in
  let r2 := columnString (X := Demo.ext) (snd (fst r1)) 1 false (snd r1) in
  reachable (X := Demo.ext) (snd r1)
  /\ col_text_ (this (snd r0)) = Some [Some "2"; Some "Read error"]
  /\ colorized_ (this (snd r0)) = false
  /\ populations (trace (snd r0)) = 1%nat
  /\ populations (trace (snd r1)) = 2%nat
  /\ colorized_ (this (snd r1)) = true
  /\ data_ver_ (this (snd r1)) <> col_data_ver_ (snd r1)
  /\ populations (trace (snd r2)) = 3%nat
  /\ record_reads (trace (snd r2)) = 3%nat.
Proof.
  cbv zeta. split.
  - apply (reach_columnString (X := Demo.ext) _ _ 1 true).
    apply (reach_columnString (X := Demo.ext) _ (Some Demo.cf2) 1 false).
    apply (reach_resetColumns (X := Demo.ext) _ (Some Demo.cinfo2)).
    apply reach_new.
  - vm_compute. repeat split. discriminate.
Qed.

(** Where the cache is current (stamped with the generation, which a
    population does only when the read succeeds) and not yet colourised, a
    read that asks for colouring runs exactly one population and leaves the
    record colourised; any later read that does not ask for colouring is
    served from the cache and changes nothing. *)
Theorem colorize_upgrade_runs_once {X : Externals} (cf : capture_file) (s : state)
    (column : Z) :
  cache_current s cf ->
  colorized_ (this s) = false ->
  0 <= column < num_cols (cinfo cf) ->
  let r1 := columnString (Some cf) column true s in
  populations (trace (snd r1)) = S (populations (trace s))
  /\ colorized_ (this (snd r1)) = true
  /\ snd (fst r1) = Some cf
  /\ (forall column2,
        0 <= column2 < num_cols (cinfo cf) ->
        let r2 := columnString (snd (fst r1)) column2 false (snd r1) in
        snd r2 = snd r1
        /\ snd (fst r2) = snd (fst r1)
        /\ populations (trace (snd r2)) = populations (trace (snd r1))).
Proof.
  intros Hcur Hcol Hc. cbv zeta.
  rewrite columnString_miss; [|lia|].
  2:{ rewrite (cache_miss_current s cf column _ Hcur Hc), Hcol. reflexivity. }
  rewrite Hcol. cbn [negb andb].
  destruct (dissect_keeps_current cf true s Hcur ltac:(lia))
    as (s' & E & Hcur' & _ & C & P & _).
  rewrite E. cbn [fst snd].
  split; [exact P|]. split; [exact C|]. split; [reflexivity|].
  intros column2 Hc2.
  rewrite columnString_hit; [cbn [fst snd]; auto|lia|].
  rewrite (cache_miss_current s' cf column2 _ Hcur' Hc2). reflexivity.
Qed.

Lemma colorize_upgrade_runs_once_witness :
  populations
    (trace (snd (columnString (X := Demo.ext) (Some Demo.cf2) 1 true DemoRuns.populated)))
  = S (populations (trace DemoRuns.populated))
  /\ colorized_
       (this (snd (columnString (X := Demo.ext) (Some Demo.cf2) 1 true DemoRuns.populated)))
     = true.
Proof.
  destruct (colorize_upgrade_runs_once (X := Demo.ext) Demo.cf2 DemoRuns.populated 1)
    as (A & B & _).
  - exact demo_populated_current.
  - reflexivity.
  - simpl. lia.
  - split; [exact A|exact B].
Defined.

(** C6.  Two consecutive reads of the same valid column with the same
    colouring request return the same text, and the dissection engine runs
    at most once over the two (the cache obeys the invariant of the data
    model when the first read starts, and nothing else happens between the
    reads). *)
Theorem columnString_idempotent {X : Externals} (cf : capture_file) (s : state)
    (column : Z) (colorized : bool) :
  cache_coherent s cf ->
  0 <= column < num_cols (cinfo cf) ->
  let r1 := columnString (Some cf) column colorized s in
  let r2 := columnString (snd (fst r1)) column colorized (snd r1) in
  fst (fst r2) = fst (fst r1)
  /\ (parser_runs (trace (snd r2)) <= S (parser_runs (trace s)))%nat.
Proof.
  intros Hcoh Hc. cbv zeta.
  set (dc := colorized && negb (colorized_ (this s))).
  destruct (cache_miss s column dc) eqn:M.
  2:{ rewrite (columnString_hit cf column colorized s ltac:(lia) M). cbn [fst snd].
      rewrite (columnString_hit cf column colorized s ltac:(lia) M). cbn [fst snd].
      split; [reflexivity|lia]. }
  rewrite (columnString_miss cf column colorized s ltac:(lia) M). fold dc.
  destruct (dissect_covers cf dc s Hcoh ltac:(lia))
    as (cf' & s' & E & K1 & K2 & N & G & C & (l & Hl & Hlen & Hs) & V & Q).
  rewrite E. cbn [fst snd].
  assert (Hdc' : colorized && negb (colorized_ (this s')) = false).
  { rewrite C. subst dc. apply colour_settled. }
  assert (Hhit : data_ver_ (this s') = col_data_ver_ s' ->
                 columnString (Some cf') column colorized s'
                 = (QList_value (col_text_ (this s')) column, Some cf', s')).
  { intros Hv'. apply columnString_current_hit; [|lia|exact Hdc'].
    exists l. repeat split; auto. lia. }
  destruct (cf_read_record_r (cf_source cf) (num (fdata_ (this s)))) as [rec|] eqn:R.
  - rewrite Hhit by congruence. cbn [fst snd]. split; [reflexivity|lia].
  - destruct (Z.eq_dec (data_ver_ (this s)) (col_data_ver_ s)) as [Hcur|Hstale].
    + rewrite Hhit by congruence. cbn [fst snd]. split; [reflexivity|lia].
    + (* the stamp was stale and still is: the second read retries *)
      assert (Hstale' : data_ver_ (this s') <> col_data_ver_ s') by congruence.
      rewrite (columnString_miss cf' column colorized s' ltac:(lia)
                 (cache_miss_stale s' column _ Hstale')).
      rewrite Hdc'.
      destruct (dissect_read_error cf dc s R)
        as (cf1 & s1 & E1 & _ & (M1 & _) & (_ & _ & F1 & _) & (_ & _ & Kf & Ke) & P1).
      rewrite E in E1. injection E1 as <- <-.
      rewrite (stale_needs_columns s Hstale) in P1. cbv zeta in P1.
      destruct P1 as (T1 & _ & _ & Cells).
      assert (R' : cf_read_record_r (cf_source cf') (num (fdata_ (this s'))) = None)
        by (rewrite K2, N; exact R).
      destruct (dissect_read_error cf' false s' R')
        as (cf2 & s2 & E2 & Tr2 & _ & _ & _ & P2).
      rewrite E2. cbn [fst snd].
      rewrite (stale_needs_columns s' Hstale') in P2, Tr2. cbv zeta in P2.
      destruct P2 as (T2 & _).
      split.
      * rewrite T1, T2. unfold QList_value.
        rewrite !cached_texts_at by (cbn [num_cols col_fill_in_error set_col_data]; lia).
        rewrite M1.
        apply error_fill_text_stable; auto.
        rewrite Cells.
        destruct (Z.leb_spec 0 column); [|lia].
        destruct (Z.ltb_spec column (num_cols (cinfo cf))); [|lia]. reflexivity.
      * rewrite Tr2, parser_runs_app, Q. unfold parser_runs at 2. simpl. lia.
Qed.

Lemma columnString_idempotent_witness :
  fst (fst (columnString (X := Demo.ext)
              (snd (fst (columnString (X := Demo.ext) (Some Demo.cf2) 1 false (Demo.fresh 2))))
              1 false
              (snd (columnString (X := Demo.ext) (Some Demo.cf2) 1 false (Demo.fresh 2)))))
  = "Read error"
  /\ (parser_runs
        (trace (snd (columnString (X := Demo.ext) (Some Demo.cf2) 1 true DemoRuns.populated)))
      <= S (parser_runs (trace DemoRuns.populated)))%nat.
Proof.
  split.
  - transitivity
      (fst (fst (columnString (X := Demo.ext) (Some Demo.cf2) 1 false (Demo.fresh 2))));
      [|vm_compute; reflexivity].
    apply (columnString_idempotent (X := Demo.ext) Demo.cf2 (Demo.fresh 2) 1 false).
    + intros l Hl. vm_compute in Hl. discriminate.
    + simpl. lia.
  - etransitivity;
      [|apply (columnString_idempotent (X := Demo.ext) Demo.cf2 DemoRuns.populated 1 true)].
    + vm_compute. repeat constructor.
    + intros l Hl Hne _. vm_compute in Hl. injection Hl as <-.
      split; [reflexivity|repeat constructor; eexists; reflexivity].
    + simpl. lia.
Defined.

(** C7.  [resetColumns] bumps the generation and touches no record: the
    record held in the state, whichever it is, is unchanged and nothing is
    read or dissected.  The next [columnString] on a record that carried the
    old generation, for a valid column, runs exactly one population, after
    which [col_text_] has one entry per column of the new descriptor. *)
Theorem resetColumns_invalidates_lazily {X : Externals} (s : state) :
  (forall cinfo,
      this (resetColumns cinfo s) = this s
      /\ trace (resetColumns cinfo s) = trace s
      /\ col_data_ver_ (resetColumns cinfo s) <> col_data_ver_ s)
  /\ (forall cf column colorized,
        data_ver_ (this s) = col_data_ver_ s ->
        0 <= column < num_cols (cinfo cf) ->
        let s' := snd (columnString (Some cf) column colorized
                         (resetColumns (Some (cinfo cf)) s)) in
        populations (trace s') = S (populations (trace s))
        /\ exists texts,
             col_text_ (this s') = Some texts
             /\ Z.of_nat (length texts) = num_cols (cinfo cf)).
Proof.
  split.
  - intros cinfo. destruct (resetColumns_this cinfo s) as (A & B & C).
    rewrite A, B, C. repeat split. apply bump_changes.
  - intros cf column colorized Hv Hc.
    destruct (resetColumns_this (Some (cinfo cf)) s) as (A & B & C).
    set (s1 := resetColumns (Some (cinfo cf)) s) in *.
    assert (Hst : data_ver_ (this s1) <> col_data_ver_ s1).
    { rewrite A, C, Hv. intros H. symmetry in H. exact (bump_changes _ H). }
    cbv zeta.
    rewrite columnString_miss; [|lia|apply cache_miss_stale; exact Hst].
    destruct (dissect_summary cf (colorized && negb (colorized_ (this s1))) s1)
      as (cf' & s' & E & (P & _) & _ & _ & _ & T).
    rewrite E. cbn [snd]. rewrite P, B. split; [reflexivity|].
    rewrite (stale_needs_columns s1 Hst) in T.
    destruct T as (texts & T1 & T2 & _). exists texts. split; [exact T1|lia].
Qed.

Lemma resetColumns_invalidates_lazily_witness :
  exists texts,
    col_text_ (this (snd (columnString (X := Demo.ext) (Some Demo.cf3) 2 false
                            (resetColumns (X := Demo.ext) (Some Demo.cinfo3)
                                          DemoRuns.populated))))
    = Some texts
    /\ Z.of_nat (length texts) = 3.
Proof.
  apply (proj2 (resetColumns_invalidates_lazily (X := Demo.ext) DemoRuns.populated)
               Demo.cf3 2 false).
  - reflexivity.
  - simpl. lia.
Defined.



(** C9 (the code departs from the claim).  Frame 2 cannot be read.  Its
    Info column is read with colouring: the population goes through the
    error path, caches the two texts and sets [colorized_].  Then
    [resetColorized] clears the flag and nothing else.  The read that
    follows asks for no colouring, yet it runs a population and reads the
    record again, because the stamp is still not the generation. *)
Theorem uncoloured_read_after_reset_recomputes :
  let r0 := columnString (X := Demo.ext) (Some Demo.cf2) 1 true (Demo.fresh 2) in
  let s1 := resetColorized (snd r0) in
  let r2 := columnString (X := Demo.ext) (snd (fst r0)) 1 false s1 in
  reachable (X := Demo.ext) s1
  /\ col_text_ (this (snd r0)) = Some [Some "2"; Some "Read error"]
  /\ colorized_ (this (snd r0)) = true
  /\ colorized_ (this s1) = false
  /\ col_text_ (this s1) = col_text_ (this (snd r0))
  /\ data_ver_ (this s1) = data_ver_ (this (snd r0))
  /\ data_ver_ (this s1) <> col_data_ver_ s1
  /\ populations (trace (snd r2)) = S (populations (trace s1))
  /\ record_reads (trace (snd r2)) = S (record_reads (trace s1)).
Proof.
  cbv zeta. split.
  - apply reach_resetColorized.
    apply (reach_columnString (X := Demo.ext) _ (Some Demo.cf2) 1 true).
    apply (reach_resetColumns (X := Demo.ext) _ (Some Demo.cinfo2)).
    apply reach_new.
  - vm_compute. repeat split. discriminate.
Qed.

(** [resetColorized] clears [colorized_] and nothing else: the cached
    texts, the line count, the version stamp, the frame metadata and both
    static members stay as they were and nothing is logged.  Where the
    cache is current (stamped with the generation, which a population does
    only when the read succeeds), the next read without colouring is served
    from the cache, and only a read that asks for colouring runs a
    population. *)
Theorem resetColorized_only_clears_flag {X : Externals} (s : state) :
  (colorized_ (this (resetColorized s)) = false
   /\ col_text_ (this (resetColorized s)) = col_text_ (this s)
   /\ lines_ (this (resetColorized s)) = lines_ (this s)
   /\ line_count_changed_ (this (resetColorized s)) = line_count_changed_ (this s)
   /\ data_ver_ (this (resetColorized s)) = data_ver_ (this s)
   /\ fdata_ (this (resetColorized s)) = fdata_ (this s)
   /\ conv_ (this (resetColorized s)) = conv_ (this s)
   /\ cinfo_column_ (resetColorized s) = cinfo_column_ s
   /\ col_data_ver_ (resetColorized s) = col_data_ver_ s
   /\ trace (resetColorized s) = trace s)
  /\ (forall cf column,
        cache_current s cf -> 0 <= column < num_cols (cinfo cf) ->
        snd (columnString (Some cf) column false (resetColorized s))
        = resetColorized s
        /\ populations
             (trace (snd (columnString (Some cf) column true (resetColorized s))))
           = S (populations (trace s))).
Proof.
  split; [repeat split|].
  intros cf column Hcur Hc.
  assert (Hcur' : cache_current (resetColorized s) cf) by exact Hcur.
  split.
  - rewrite columnString_hit; [reflexivity|lia|].
    now rewrite (cache_miss_current _ cf column _ Hcur' Hc).
  - rewrite columnString_miss;
      [|lia|now rewrite (cache_miss_current _ cf column _ Hcur' Hc)].
    destruct (dissect_summary cf (true && negb (colorized_ (this (resetColorized s))))
                (resetColorized s)) as (cf' & s' & E & (P & _) & _).
    rewrite E. exact P.
Qed.

Lemma resetColorized_only_clears_flag_witness :
  let s := snd (columnString (X := Demo.ext) (Some Demo.cf2) 1 true
                  DemoRuns.populated) in
  colorized_ (this s) = true
  /\ populations
       (trace (snd (columnString (X := Demo.ext) (Some Demo.cf2) 1 true
                      (resetColorized s))))
     = S (populations (trace s)).
Proof.
  cbv zeta. split; [vm_compute; reflexivity|].
  apply (proj2 (resetColorized_only_clears_flag (X := Demo.ext)
                  (snd (columnString (X := Demo.ext) (Some Demo.cf2) 1 true
                          DemoRuns.populated)))
               Demo.cf2 1).
  - eexists. split; [vm_compute; reflexivity|].
    split; [reflexivity|]. split; [|vm_compute; reflexivity].
    repeat constructor; eexists; reflexivity.
  - simpl. lia.
Defined.

(** C10.  [resetColumns] with a null descriptor still bumps the generation,
    so that every record stamped with the old generation misses on its next
    read and is repopulated; the map [cinfo_column_] is left exactly as it
    was, so every column keeps the classification of the previous schema. *)
Theorem resetColumns_null_keeps_column_map {X : Externals} (s : state) :
  cinfo_column_ (resetColumns None s) = cinfo_column_ s
  /\ (forall column,
        default (-1) (cinfo_column_ (resetColumns None s) !! column)
        = default (-1) (cinfo_column_ s !! column))
  /\ col_data_ver_ (resetColumns None s) <> col_data_ver_ s
  /\ this (resetColumns None s) = this s
  /\ (forall cf column colorized,
        data_ver_ (this s) = col_data_ver_ s ->
        0 <= column < num_cols (cinfo cf) ->
        cache_miss (resetColumns None s) column
                   (colorized && negb (colorized_ (this s))) = true
        /\ populations
             (trace (snd (columnString (Some cf) column colorized
                            (resetColumns None s))))
           = S (populations (trace s))).
Proof.
  split; [reflexivity|]. split; [reflexivity|].
  split; [apply bump_changes|]. split; [reflexivity|].
  intros cf column colorized Hv Hc.
  assert (Hst : data_ver_ (this (resetColumns None s))
                <> col_data_ver_ (resetColumns None s)).
  { cbn. rewrite Hv. intros H. symmetry in H. exact (bump_changes _ H). }
  split; [apply cache_miss_stale; exact Hst|].
  rewrite columnString_miss; [|lia|apply cache_miss_stale; exact Hst].
  destruct (dissect_summary cf
              (colorized && negb (colorized_ (this (resetColumns None s))))
              (resetColumns None s)) as (cf' & s' & E & (P & _) & _).
  rewrite E. exact P.
Qed.

Lemma resetColumns_null_keeps_column_map_witness :
  populations
    (trace (snd (columnString (X := Demo.ext) (Some Demo.cf2) 1 false
                   (resetColumns (X := Demo.ext) None DemoRuns.populated))))
  = S (populations (trace DemoRuns.populated)).
Proof.
  apply (proj2 (proj2 (proj2 (proj2
           (resetColumns_null_keeps_column_map (X := Demo.ext) DemoRuns.populated))))
           Demo.cf2 1 false).
  - reflexivity.
  - simpl. lia.
Defined.

(** * Further properties of the code *)

(** ** The column map built by [resetColumns] *)

Lemma parser_columns_before_succ {X : Externals} (ci : column_info) (k : nat) :
  parser_columns_before ci (Z.of_nat (S k))
  = parser_columns_before ci (Z.of_nat k)
    + (if col_based_on_frame_data ci (Z.of_nat k) then 0 else 1).
Proof.
  unfold parser_columns_before. rewrite seqZ_S, List.filter_app, length_app.
  cbn [List.filter]. rewrite Z.add_0_l.
  destruct (col_based_on_frame_data ci (Z.of_nat k)); cbn [negb length]; lia.
Qed.

Lemma parser_columns_before_mono {X : Externals} (ci : column_info) (a b : nat) :
  (a <= b)%nat ->
  parser_columns_before ci (Z.of_nat a) <= parser_columns_before ci (Z.of_nat b).
Proof.
  induction 1 as [|b _ IH]; [lia|].
  rewrite parser_columns_before_succ.
  destruct (col_based_on_frame_data ci (Z.of_nat b)); lia.
Qed.

Lemma parser_columns_before_nonneg {X : Externals} (ci : column_info) (i : Z) :
  0 <= parser_columns_before ci i.
Proof. unfold parser_columns_before. lia. Qed.

(** The loop of [resetColumns] after [k] turns. *)
Lemma map_columns_spec {X : Externals} (ci : column_info) (m0 : gmap Z Z) (k : nat) :
  exists m,
    fold_left (map_column ci) (seqZ 0 (Z.of_nat k)) (m0, 0)
    = (m, parser_columns_before ci (Z.of_nat k))
    /\ forall i,
         m !! i = if (0 <=? i) && (i <? Z.of_nat k)
                     && negb (col_based_on_frame_data ci i)
                  then Some (parser_columns_before ci i)
                  else m0 !! i.
Proof.
  induction k as [|k (m & E & L)].
  - exists m0. split; [reflexivity|]. intros i.
    destruct (Z.leb_spec 0 i), (Z.ltb_spec i (Z.of_nat 0)); simpl; try reflexivity; lia.
  - rewrite seqZ_S, fold_left_app, E. cbn [fold_left map_column].
    rewrite Z.add_0_l, parser_columns_before_succ.
    destruct (col_based_on_frame_data ci (Z.of_nat k)) eqn:Fd; cbn [negb].
    + exists m. rewrite Z.add_0_r. split; [reflexivity|]. intros i. rewrite L.
      destruct (Z.leb_spec 0 i); cbn [andb]; [|reflexivity].
      destruct (Z.ltb_spec i (Z.of_nat k)), (Z.ltb_spec i (Z.of_nat (S k)));
        cbn [andb]; try reflexivity; try lia.
      assert (i = Z.of_nat k) as -> by lia. now rewrite Fd.
    + exists (<[Z.of_nat k := parser_columns_before ci (Z.of_nat k)]> m).
      split; [reflexivity|]. intros i.
      destruct (Z.eq_dec i (Z.of_nat k)) as [->|Hne].
      * rewrite lookup_insert_eq, Fd.
        destruct (Z.leb_spec 0 (Z.of_nat k)); [|lia].
        destruct (Z.ltb_spec (Z.of_nat k) (Z.of_nat (S k))); [|lia]. reflexivity.
      * rewrite lookup_insert_ne by congruence. rewrite L.
        destruct (Z.leb_spec 0 i); cbn [andb]; [|reflexivity].
        destruct (Z.ltb_spec i (Z.of_nat k)), (Z.ltb_spec i (Z.of_nat (S k)));
          cbn [andb]; try reflexivity; lia.
Qed.

Lemma resetColumns_lookup {X : Externals} (ci : column_info) (s : state) (i : Z) :
  cinfo_column_ (resetColumns (Some ci) s) !! i
  = if (0 <=? i) && (i <? num_cols ci) && negb (col_based_on_frame_data ci i)
    then Some (parser_columns_before ci i)
    else None.
Proof.
  unfold resetColumns. cbn [cinfo_column_ set_cinfo_column invalidateAllRecords
                            set_col_data_ver].
  destruct (Z.le_gt_cases 0 (num_cols ci)) as [Hn|Hn].
  - destruct (map_columns_spec ci ∅ (Z.to_nat (num_cols ci))) as (m & E & L).
    rewrite Z2Nat.id in E, L by lia. rewrite E. cbn [cinfo_column_]. rewrite L.
    destruct ((0 <=? i) && (i <? num_cols ci) && negb (col_based_on_frame_data ci i));
      [reflexivity|apply lookup_empty].
  - rewrite seqZ_nil by lia. cbn [fold_left cinfo_column_].
    destruct (Z.leb_spec 0 i), (Z.ltb_spec i (num_cols ci)); cbn [andb];
      try apply lookup_empty. lia.
Qed.

Lemma resetColumns_lookup_iff {X : Externals} (ci : column_info) (s : state) (i j : Z) :
  cinfo_column_ (resetColumns (Some ci) s) !! i = Some j
  <-> 0 <= i < num_cols ci
      /\ col_based_on_frame_data ci i = false
      /\ j = parser_columns_before ci i.
Proof.
  rewrite resetColumns_lookup.
  destruct (Z.leb_spec 0 i), (Z.ltb_spec i (num_cols ci)),
    (col_based_on_frame_data ci i); cbn [andb negb];
    split; try discriminate; try (intros (? & ? & ?); try lia; discriminate).
  - intros [= <-]. repeat split; lia.
  - intros (_ & _ & ->). reflexivity.
Qed.

(** X1.  After [resetColumns] with a descriptor, [cinfo_column_] maps a
    column to [j] exactly when the column is one of the descriptor's
    columns, is not based on the frame data, and [j] of the columns before
    it are not based on the frame data either.  So the test [text_col < 0]
    of [cacheColumnStrings] singles out the columns based on the frame
    data, whatever the map held before. *)
Theorem resetColumns_map_characterised {X : Externals} (ci : column_info) (s : state) :
  (forall i j,
      cinfo_column_ (resetColumns (Some ci) s) !! i = Some j
      <-> 0 <= i < num_cols ci
          /\ col_based_on_frame_data ci i = false
          /\ j = parser_columns_before ci i)
  /\ (forall i,
        0 <= i < num_cols ci ->
        (default (-1) (cinfo_column_ (resetColumns (Some ci) s) !! i) <? 0)
        = col_based_on_frame_data ci i).
Proof.
  split.
  - intros i j. apply resetColumns_lookup_iff.
  - intros i Hi. rewrite resetColumns_lookup.
    destruct (Z.leb_spec 0 i); [|lia]. destruct (Z.ltb_spec i (num_cols ci)); [|lia].
    destruct (col_based_on_frame_data ci i); cbn [andb negb default]; [reflexivity|].
    pose proof (parser_columns_before_nonneg ci i). cbn. lia.
Qed.

Lemma resetColumns_map_characterised_witness :
  cinfo_column_ (resetColumns (X := Demo.ext) (Some Demo.cinfo3) (Demo.fresh 1)) !! 2
  = Some 1
  /\ (default (-1)
        (cinfo_column_ (resetColumns (X := Demo.ext) (Some Demo.cinfo3) (Demo.fresh 1))
           !! 0) <? 0) = true.
Proof.
  split.
  - apply (proj1 (resetColumns_map_characterised (X := Demo.ext) Demo.cinfo3
                    (Demo.fresh 1))).
    repeat split; simpl; lia.
  - rewrite (proj2 (resetColumns_map_characterised (X := Demo.ext) Demo.cinfo3
                      (Demo.fresh 1)) 0); [reflexivity|simpl; lia].
Defined.

Lemma parser_columns_before_step {X : Externals} (ci : column_info) (i : Z) :
  0 <= i -> col_based_on_frame_data ci i = false ->
  parser_columns_before ci (i + 1) = parser_columns_before ci i + 1.
Proof.
  intros Hi Fd.
  pose proof (parser_columns_before_succ ci (Z.to_nat i)) as H.
  rewrite Nat2Z.inj_succ, Z2Nat.id, Fd in H by lia. exact H.
Qed.

Lemma parser_columns_before_le {X : Externals} (ci : column_info) (a b : Z) :
  0 <= a <= b -> parser_columns_before ci a <= parser_columns_before ci b.
Proof.
  intros H.
  pose proof (parser_columns_before_mono ci (Z.to_nat a) (Z.to_nat b) ltac:(lia)) as M.
  rewrite !Z2Nat.id in M by lia. exact M.
Qed.

Lemma parser_columns_onto {X : Externals} (ci : column_info) (k : nat) (j : Z) :
  0 <= j < parser_columns_before ci (Z.of_nat k) ->
  exists i, 0 <= i < Z.of_nat k
            /\ col_based_on_frame_data ci i = false
            /\ parser_columns_before ci i = j.
Proof.
  induction k as [|k IH]; intros Hj.
  - unfold parser_columns_before in Hj. simpl in Hj. lia.
  - rewrite parser_columns_before_succ in Hj.
    destruct (Z.lt_ge_cases j (parser_columns_before ci (Z.of_nat k))) as [Hlt|Hge].
    + destruct (IH ltac:(lia)) as (i & Hi & Fd & E). exists i. repeat split; auto; lia.
    + destruct (col_based_on_frame_data ci (Z.of_nat k)) eqn:Fd; [lia|].
      exists (Z.of_nat k). repeat split; auto; lia.
Qed.

(** X2.  The map built by [resetColumns] numbers the columns that are not
    based on the frame data consecutively from 0 in column order: a later
    column gets a larger index, every index is below the number of such
    columns, and every index below that number is taken. *)
Theorem resetColumns_map_numbering {X : Externals} (ci : column_info) (s : state) :
  (forall i1 i2 j1 j2,
      cinfo_column_ (resetColumns (Some ci) s) !! i1 = Some j1 ->
      cinfo_column_ (resetColumns (Some ci) s) !! i2 = Some j2 ->
      i1 < i2 -> j1 < j2)
  /\ (forall i j,
        cinfo_column_ (resetColumns (Some ci) s) !! i = Some j ->
        0 <= j < parser_columns_before ci (num_cols ci))
  /\ (forall j,
        0 <= j < parser_columns_before ci (num_cols ci) ->
        exists i, cinfo_column_ (resetColumns (Some ci) s) !! i = Some j).
Proof.
  pose proof (resetColumns_lookup_iff ci s) as Hmap.
  split; [|split].
  - intros i1 i2 j1 j2 H1 H2 Hlt.
    apply Hmap in H1 as (R1 & F1 & ->). apply Hmap in H2 as (R2 & F2 & ->).
    pose proof (parser_columns_before_step ci i1 ltac:(lia) F1).
    pose proof (parser_columns_before_le ci (i1 + 1) i2 ltac:(lia)). lia.
  - intros i j H. apply Hmap in H as (R & F & ->).
    pose proof (parser_columns_before_nonneg ci i).
    pose proof (parser_columns_before_step ci i ltac:(lia) F).
    pose proof (parser_columns_before_le ci (i + 1) (num_cols ci) ltac:(lia)). lia.
  - intros j Hj.
    destruct (Z.le_gt_cases 0 (num_cols ci)) as [Hn|Hn].
    + rewrite <- (Z2Nat.id (num_cols ci)) in Hj by lia.
      destruct (parser_columns_onto ci _ j Hj) as (i & Hi & F & E).
      exists i. apply Hmap. repeat split; auto; lia.
    + unfold parser_columns_before in Hj. rewrite seqZ_nil in Hj by lia.
      simpl in Hj. lia.
Qed.

Lemma resetColumns_map_numbering_witness :
  exists i,
    cinfo_column_ (resetColumns (X := Demo.ext) (Some Demo.cinfo3) (Demo.fresh 1)) !! i
    = Some 1.
Proof.
  apply (proj2 (proj2 (resetColumns_map_numbering (X := Demo.ext) Demo.cinfo3
                         (Demo.fresh 1)))).
  vm_compute. split; [discriminate|reflexivity].
Defined.

(** ** What a read keeps *)

(** X3.  [columnString] never changes the static column map or the
    generation, nor the frame a record stands for, nor the number and the
    formats of the capture file's columns; it never clears [colorized_],
    and it leaves the version stamp alone or sets it to the current
    generation.  A null [cap_file] stays null. *)
Theorem columnString_preserves {X : Externals} (cap_file : option capture_file)
    (column : Z) (colorized : bool) (s : state) :
  let r := columnString cap_file column colorized s in
  cinfo_column_ (snd r) = cinfo_column_ s
  /\ col_data_ver_ (snd r) = col_data_ver_ s
  /\ num (fdata_ (this (snd r))) = num (fdata_ (this s))
  /\ (colorized_ (this s) = true -> colorized_ (this (snd r)) = true)
  /\ (data_ver_ (this (snd r)) = data_ver_ (this s)
      \/ data_ver_ (this (snd r)) = col_data_ver_ s)
  /\ match cap_file, snd (fst r) with
     | Some cf, Some cf' =>
         cf_source cf' = cf_source cf
         /\ num_cols (cinfo cf') = num_cols (cinfo cf)
         /\ col_fmt (cinfo cf') = col_fmt (cinfo cf)
     | None, None => True
     | _, _ => False
     end.
Proof.
  cbv zeta. unfold columnString.
  destruct cap_file as [cf|]; [|cbn [fst snd]; tauto].
  destruct ((column <? 0) || (column >? num_cols (cinfo cf)));
    [cbn [fst snd]; tauto|].
  match goal with |- context [if ?c then _ else _] => destruct c end;
    [|cbn [fst snd]; tauto].
  destruct (dissect_summary cf (colorized && negb (colorized_ (this s))) s)
    as (cf' & s' & E & _ & (G1 & G2) & (C & N & V) & K & _).
  rewrite E. cbn [fst snd].
  repeat split; try tauto.
  - intros H. rewrite C, H. apply orb_true_r.
  - rewrite V. destruct (cf_read_record_r _ _); auto.
Qed.

Lemma columnString_preserves_witness :
  colorized_
    (this (snd (columnString (X := Demo.ext) (Some Demo.cf2) 0 false
                  (snd (columnString (X := Demo.ext) (Some Demo.cf2) 1 true
                          DemoRuns.populated)))))
  = true.
Proof.
  apply (columnString_preserves (X := Demo.ext) (Some Demo.cf2) 0 false).
  vm_compute. reflexivity.
Defined.

(** ** Indices outside the columns *)

Lemma QList_value_out_of_range (l : list (option string)) (i : Z) :
  Z.of_nat (length l) <= i -> QList_value (Some l) i = "".
Proof.
  intros H. unfold QList_value, QList_at.
  destruct (Z.ltb_spec i 0); [reflexivity|].
  rewrite (proj2 (lookup_ge_None l (Z.to_nat i))) by lia. reflexivity.
Qed.

(** On a coherent cache the index equal to the column count is a miss. *)
Lemma column_count_miss (s : state) (cf : capture_file) (dc : bool) :
  cache_coherent s cf -> 0 <= num_cols (cinfo cf) ->
  cache_miss s (num_cols (cinfo cf)) dc = true.
Proof.
  intros Hcoh Hn. unfold cache_miss, QList_size.
  destruct (col_text_ (this s)) as [l|] eqn:Hl; [|reflexivity]. cbn [orb].
  destruct (Z.geb_spec (num_cols (cinfo cf)) (Z.of_nat (length l))) as [|Hlt];
    [reflexivity|]. cbn [orb].
  destruct (Z.eqb_spec (data_ver_ (this s)) (col_data_ver_ s)) as [Hv|];
    [|cbn [negb]; now rewrite orb_true_r].
  assert (Hne : l <> []) by (intros ->; simpl in Hlt; lia).
  destruct (Hcoh l Hl Hne Hv). lia.
Qed.

(** The call with the index equal to the column count, on a coherent
    cache: it runs a population, returns nothing and leaves a coherent
    cache over the same columns. *)
Lemma columnString_at_count {X : Externals} (cf : capture_file) (colorized : bool)
    (s : state) :
  cache_coherent s cf -> 0 <= num_cols (cinfo cf) ->
  exists cf' s',
    columnString (Some cf) (num_cols (cinfo cf)) colorized s = ("", Some cf', s')
    /\ populations (trace s') = S (populations (trace s))
    /\ record_reads (trace s') = S (record_reads (trace s))
    /\ cache_coherent s' cf'
    /\ num_cols (cinfo cf') = num_cols (cinfo cf).
Proof.
  intros Hcoh Hn.
  rewrite (columnString_miss cf (num_cols (cinfo cf)) colorized s ltac:(lia)
             (column_count_miss s cf _ Hcoh Hn)).
  destruct (dissect_keeps_coherent cf (colorized && negb (colorized_ (this s))) s Hcoh)
    as (cf' & s' & E & Hcoh').
  destruct (dissect_summary cf (colorized && negb (colorized_ (this s))) s)
    as (cf1 & s1 & E1 & (P & R & _) & _ & _ & (_ & K & _) & T).
  rewrite E in E1. injection E1 as <- <-. rewrite E.
  exists cf', s'. split; [|auto].
  f_equal. f_equal.
  destruct (dissect_columns_needed s) eqn:Hneed.
  - destruct T as (texts & T1 & T2 & _). rewrite T1.
    apply QList_value_out_of_range. lia.
  - destruct T as (T1 & _).
    destruct (needed_not_empty s Hneed) as (l & Hl & Hne & Hv).
    destruct (Hcoh l Hl Hne Hv) as (Hlen & _).
    rewrite T1, Hl. apply QList_value_out_of_range. lia.
Qed.

(** X4.  On a coherent cache [columnString] returns the empty array for
    every index outside [0 .. num_cols - 1], the column count included. *)
Theorem columnString_empty_outside_columns {X : Externals} (cf : capture_file)
    (column : Z) (colorized : bool) (s : state) :
  cache_coherent s cf ->
  column < 0 \/ num_cols (cinfo cf) <= column ->
  fst (fst (columnString (Some cf) column colorized s)) = "".
Proof.
  intros Hcoh Hc.
  destruct (Z.eq_dec column (num_cols (cinfo cf))) as [->|Hne].
  - destruct (Z.lt_ge_cases (num_cols (cinfo cf)) 0) as [Hneg|Hn].
    + rewrite columnString_out_of_range; [reflexivity|].
      intros cf0 [= <-]. left. exact Hneg.
    + destruct (columnString_at_count cf colorized s Hcoh ltac:(lia))
        as (cf' & s' & E & _).
      rewrite E. reflexivity.
  - rewrite columnString_out_of_range; [reflexivity|].
    intros cf0 [= <-]. lia.
Qed.

Lemma columnString_empty_outside_columns_witness :
  fst (fst (columnString (X := Demo.ext) (Some Demo.cf2) 2 true DemoRuns.populated)) = "".
Proof.
  apply (columnString_empty_outside_columns (X := Demo.ext) Demo.cf2 2 true).
  - intros l Hl _ _. vm_compute in Hl. injection Hl as <-.
    split; [reflexivity|repeat constructor; eexists; reflexivity].
  - right. simpl. lia.
Defined.

(** X5.  The index equal to the column count is never served from the
    cache: on a coherent cache, [n] calls in a row with that index run [n]
    populations and read the record [n] times. *)
Theorem columnString_at_count_never_cached {X : Externals} (n : nat)
    (cf : capture_file) (colorized : bool) (s : state) :
  cache_coherent s cf -> 0 <= num_cols (cinfo cf) ->
  populations
    (trace (snd (columnString_times n (Some cf) (num_cols (cinfo cf)) colorized s)))
  = (populations (trace s) + n)%nat
  /\ record_reads
       (trace (snd (columnString_times n (Some cf) (num_cols (cinfo cf)) colorized s)))
     = (record_reads (trace s) + n)%nat.
Proof.
  revert cf s. induction n as [|n IH]; intros cf s Hcoh Hn.
  - cbn [columnString_times snd]. lia.
  - cbn [columnString_times].
    destruct (columnString_at_count cf colorized s Hcoh Hn)
      as (cf' & s' & E & P & R & Hcoh' & K).
    rewrite E. rewrite <- K.
    destruct (IH cf' s' Hcoh' ltac:(lia)) as (IP & IR).
    rewrite IP, IR, P, R. lia.
Qed.

Lemma columnString_at_count_never_cached_witness :
  populations
    (trace (snd (columnString_times (X := Demo.ext) 3 (Some Demo.cf2) 2 false
                   DemoRuns.populated)))
  = (populations (trace DemoRuns.populated) + 3)%nat.
Proof.
  apply (columnString_at_count_never_cached (X := Demo.ext) 3 Demo.cf2 false
           DemoRuns.populated).
  - intros l Hl _ _. vm_compute in Hl. injection Hl as <-.
    split; [reflexivity|repeat constructor; eexists; reflexivity].
  - simpl. lia.
Defined.

(** ** One population, many reads *)

Lemma hit_is_current (s : state) (cf : capture_file) (column : Z) (dc : bool) :
  cache_coherent s cf -> 0 <= column ->
  cache_miss s column dc = false ->
  cache_current s cf /\ dc = false.
Proof.
  intros Hcoh Hc M. unfold cache_miss, QList_size in M.
  destruct (col_text_ (this s)) as [l|] eqn:Hl; [|discriminate]. cbn [orb] in M.
  destruct (Z.geb_spec column (Z.of_nat (length l))); [discriminate|]. cbn [orb] in M.
  destruct (QList_at (Some l) column); [|discriminate]. cbn [orb] in M.
  destruct (Z.eqb_spec (data_ver_ (this s)) (col_data_ver_ s)) as [Hv|];
    [|discriminate].
  cbn [negb orb] in M. split; [|exact M].
  assert (Hne : l <> []) by (intros ->; simpl in *; lia).
  destruct (Hcoh l Hl Hne Hv) as (Hlen & Hs).
  exists l. auto.
Qed.

(** X6.  On a cache that obeys the invariant of the data model, once a
    read of a valid column has got the record from the record source, every
    read of any valid column that asks for no more colouring than the
    record has is served from the cache: it returns the cached text of its
    column and changes neither the record nor the capture file. *)
Theorem one_population_serves_all_columns {X : Externals} (cf : capture_file)
    (s : state) (column : Z) (colorized : bool) (rec : wtap_rec) :
  cache_coherent s cf ->
  0 <= column < num_cols (cinfo cf) ->
  cf_read_record_r (cf_source cf) (num (fdata_ (this s))) = Some rec ->
  let r1 := columnString (Some cf) column colorized s in
  forall column2 colorized2,
    0 <= column2 < num_cols (cinfo cf) ->
    (colorized2 = true -> colorized = true \/ colorized_ (this s) = true) ->
    let r2 := columnString (snd (fst r1)) column2 colorized2 (snd r1) in
    snd r2 = snd r1
    /\ snd (fst r2) = snd (fst r1)
    /\ fst (fst r2) = QList_value (col_text_ (this (snd r1))) column2.
Proof.
  intros Hcoh Hc R. cbv zeta. intros column2 colorized2 Hc2 Hcol.
  set (dc := colorized && negb (colorized_ (this s))).
  destruct (cache_miss s column dc) eqn:M.
  - rewrite (columnString_miss cf column colorized s ltac:(lia) M). fold dc.
    destruct (dissect_covers cf dc s Hcoh ltac:(lia))
      as (cf' & s' & E & K1 & _ & _ & G & C & (l & Hl & Hlen & Hs) & V & _).
    rewrite E. cbn [fst snd]. rewrite R in V.
    rewrite columnString_current_hit; [cbn [fst snd]; auto| | |].
    + exists l. repeat split; auto; [lia|congruence].
    + lia.
    + rewrite C. subst dc.
      destruct colorized2; [|reflexivity].
      destruct (Hcol eq_refl) as [Hk|Hk];
        destruct colorized, (colorized_ (this s)); try discriminate; reflexivity.
  - rewrite (columnString_hit cf column colorized s ltac:(lia) M). cbn [fst snd].
    destruct (hit_is_current s cf column dc Hcoh ltac:(lia) M) as (Hcur & Hdc).
    rewrite columnString_current_hit; [cbn [fst snd]; auto|exact Hcur|lia|].
    destruct colorized2; [|reflexivity]. subst dc.
    destruct (Hcol eq_refl) as [Hk|Hk];
      destruct colorized, (colorized_ (this s)); try discriminate; reflexivity.
Qed.

Lemma one_population_serves_all_columns_witness :
  fst (fst (columnString (X := Demo.ext)
              (snd (fst (columnString (X := Demo.ext) (Some Demo.cf2) 1 false
                           (Demo.fresh 1))))
              0 false
              (snd (columnString (X := Demo.ext) (Some Demo.cf2) 1 false
                      (Demo.fresh 1)))))
  = QList_value
      (col_text_ (this (snd (columnString (X := Demo.ext) (Some Demo.cf2) 1 false
                               (Demo.fresh 1)))))
      0.
Proof.
  apply (one_population_serves_all_columns (X := Demo.ext) Demo.cf2 (Demo.fresh 1)
           1 false []).
  - intros l Hl. vm_compute in Hl. discriminate.
  - simpl. lia.
  - reflexivity.
  - simpl. lia.
  - discriminate.
Defined.

(** X7.  A read that only has to colour the record (the cache is current,
    the record not yet colourised) reads the record once more but leaves
    the cached texts, the line count and its flag, and the capture file as
    they were, and returns the text that was cached. *)
Theorem colour_pass_keeps_texts {X : Externals} (cf : capture_file) (s : state)
    (column : Z) :
  cache_current s cf ->
  colorized_ (this s) = false ->
  0 <= column < num_cols (cinfo cf) ->
  let r := columnString (Some cf) column true s in
  fst (fst r) = QList_value (col_text_ (this s)) column
  /\ snd (fst r) = Some cf
  /\ col_text_ (this (snd r)) = col_text_ (this s)
  /\ lines_ (this (snd r)) = lines_ (this s)
  /\ line_count_changed_ (this (snd r)) = line_count_changed_ (this s)
  /\ record_reads (trace (snd r)) = S (record_reads (trace s)).
Proof.
  intros Hcur Hcol Hc. cbv zeta.
  rewrite columnString_miss; [|lia|].
  2:{ rewrite (cache_miss_current s cf column _ Hcur Hc), Hcol. reflexivity. }
  rewrite Hcol. cbn [negb andb].
  destruct (dissect_summary cf true s)
    as (cf' & s' & E & (_ & R & _) & _ & _ & _ & T).
  assert (Hneed : dissect_columns_needed s = false).
  { destruct Hcur as (l & Hl & Hlen & _ & Hv).
    unfold dissect_columns_needed, QList_isEmpty, QList_size.
    rewrite Hl, Hv, Z.eqb_refl.
    destruct (Z.eqb_spec (Z.of_nat (length l)) 0); [lia|reflexivity]. }
  rewrite Hneed in T. destruct T as (T1 & T2 & T3 & ->).
  rewrite E. cbn [fst snd]. rewrite T1. repeat split; auto.
Qed.

Lemma colour_pass_keeps_texts_witness :
  fst (fst (columnString (X := Demo.ext) (Some Demo.cf2) 1 true DemoRuns.populated))
  = QList_value (col_text_ (this DemoRuns.populated)) 1.
Proof.
  apply (colour_pass_keeps_texts (X := Demo.ext) Demo.cf2 DemoRuns.populated 1).
  - exact demo_populated_current.
  - reflexivity.
  - simpl. lia.
Defined.

(** ** A record that cannot be read *)

(** X8.  While the record source fails for a record whose stamp is not the
    current generation, every [columnString] call that passes the guard
    reads the record again: [n] calls make [n] reads, never run the
    dissection engine and leave the stamp where it was. *)
Theorem unreadable_record_is_read_again {X : Externals} (n : nat)
    (cf : capture_file) (s : state) (column : Z) (colorized : bool) :
  cf_read_record_r (cf_source cf) (num (fdata_ (this s))) = None ->
  data_ver_ (this s) <> col_data_ver_ s ->
  0 <= column <= num_cols (cinfo cf) ->
  let r := columnString_times n (Some cf) column colorized s in
  record_reads (trace (snd r)) = (record_reads (trace s) + n)%nat
  /\ parser_runs (trace (snd r)) = parser_runs (trace s)
  /\ data_ver_ (this (snd r)) = data_ver_ (this s).
Proof.
  cbv zeta. revert cf s.
  induction n as [|n IH]; intros cf s R Hst Hc.
  - cbn [columnString_times snd]. repeat split; lia.
  - cbn [columnString_times].
    rewrite (columnString_miss cf column colorized s Hc
               (cache_miss_stale s column _ Hst)).
    destruct (dissect_summary cf (colorized && negb (colorized_ (this s))) s)
      as (cf' & s' & E & (_ & Rd & Pr) & (_ & G) & (_ & N & V) & (K1 & K2 & _) & _).
    rewrite E. rewrite R in Pr, V.
    destruct (IH cf' s') as (IR & IP & IV).
    + rewrite K1, N. exact R.
    + congruence.
    + lia.
    + rewrite IR, IP, IV, Rd, Pr, V. repeat split; lia.
Qed.

Lemma unreadable_record_is_read_again_witness :
  record_reads
    (trace (snd (columnString_times (X := Demo.ext) 4 (Some Demo.cf2) 1 false
                   (Demo.fresh 2))))
  = (record_reads (trace (Demo.fresh 2)) + 4)%nat.
Proof.
  apply (unreadable_record_is_read_again (X := Demo.ext) 4 Demo.cf2 (Demo.fresh 2)
           1 false).
  - reflexivity.
  - vm_compute. discriminate.
  - simpl. lia.
Defined.

(** ** The texts [cacheColumnStrings] caches *)

Lemma cacheColumnStrings_value {X : Externals} (ci : column_info) (s : state) (c : Z) :
  0 <= c < num_cols ci ->
  QList_value (col_text_ (this (snd (cacheColumnStrings (Some ci) s)))) c
  = column_text (cinfo_column_ s) (fdata_ (this s)) ci c.
Proof.
  intros Hc.
  destruct (cacheColumnStrings_spec ci s) as (ci' & s' & E & T & _).
  rewrite E. cbn [snd]. rewrite T. unfold QList_value.
  now rewrite cached_texts_at.
Qed.

(** X9.  The text [cacheColumnStrings] caches for a column: the unresolved
    value when the column is not shown resolved and has one; otherwise, for
    a column the static map lists, the cell as the column information holds
    it, and for a column the map does not list, the text
    [col_fill_in_frame_data] writes for the frame (the cell as it is when
    that function writes nothing for the column's format). *)
Theorem cacheColumnStrings_text_selection {X : Externals} (ci : column_info)
    (s : state) (c : Z) :
  0 <= c < num_cols ci ->
  let t := QList_value (col_text_ (this (snd (cacheColumnStrings (Some ci) s)))) c in
  (get_column_resolved c = false ->
   forall v, col_expr_val ci c = Some v -> t = v)
  /\ (get_column_resolved c = true \/ col_expr_val ci c = None ->
      (0 <= default (-1) (cinfo_column_ s !! c) -> t = col_data ci c)
      /\ (default (-1) (cinfo_column_ s !! c) < 0 ->
          t = match col_fill_in_frame_data_text (num (fdata_ (this s)))
                      (col_fmt ci c) with
              | Some ft => ft
              | None => col_data ci c
              end)).
Proof.
  intros Hc. cbv zeta. rewrite (cacheColumnStrings_value ci s c Hc).
  unfold column_text, column_cell, uses_unresolved, col_fill_in_frame_data.
  split.
  - intros Hr v Hv. rewrite Hr, Hv. reflexivity.
  - intros Hres.
    assert (Hno : (if get_column_resolved c then None else col_expr_val ci c) = None)
      by (destruct Hres as [-> | ->]; [|destruct (get_column_resolved c)]; reflexivity).
    assert (Hu : negb (get_column_resolved c)
                 && match col_expr_val ci c with Some _ => true | None => false end
                 = false)
      by (destruct Hres as [-> | ->]; [|destruct (get_column_resolved c)]; reflexivity).
    rewrite Hno, Hu. split; intros Htc.
    + destruct (Z.ltb_spec (default (-1) (cinfo_column_ s !! c)) 0); [lia|reflexivity].
    + destruct (Z.ltb_spec (default (-1) (cinfo_column_ s !! c)) 0); [|lia].
      destruct (col_fill_in_frame_data_text (num (fdata_ (this s))) (col_fmt ci c));
        cbn [col_data set_col_data]; unfold upd; rewrite ?Z.eqb_refl; reflexivity.
Qed.

Lemma cacheColumnStrings_text_selection_witness :
  QList_value
    (col_text_ (this (snd (cacheColumnStrings (X := Demo.ext) (Some Demo.cinfo2)
                             (Demo.fresh 1)))))
    0
  = "1".
Proof.
  destruct (cacheColumnStrings_text_selection (X := Demo.ext) Demo.cinfo2
              (Demo.fresh 1) 0) as (_ & H).
  - simpl. lia.
  - destruct (H (or_introl eq_refl)) as (_ & H2). apply H2. vm_compute. reflexivity.
Defined.

(** X10.  [cacheColumnStrings] writes to the column information only the
    cells of columns the static map does not list, and only the text
    [col_fill_in_frame_data] gives for the frame; the number of columns,
    their formats and the unresolved values stay as they were.  Of the
    record it changes the texts, the line count and its flag only, and it
    leaves both static members alone. *)
Theorem cacheColumnStrings_writes {X : Externals} (ci : column_info) (s : state) :
  exists ci',
    fst (cacheColumnStrings (Some ci) s) = Some ci'
    /\ (num_cols ci' = num_cols ci
        /\ col_fmt ci' = col_fmt ci
        /\ col_expr_val ci' = col_expr_val ci)
    /\ (forall c,
          col_data ci' c <> col_data ci c ->
          0 <= c < num_cols ci
          /\ default (-1) (cinfo_column_ s !! c) < 0
          /\ col_fill_in_frame_data_text (num (fdata_ (this s))) (col_fmt ci c)
             = Some (col_data ci' c))
    /\ (fdata_ (this (snd (cacheColumnStrings (Some ci) s))) = fdata_ (this s)
        /\ data_ver_ (this (snd (cacheColumnStrings (Some ci) s))) = data_ver_ (this s)
        /\ colorized_ (this (snd (cacheColumnStrings (Some ci) s)))
           = colorized_ (this s)
        /\ conv_ (this (snd (cacheColumnStrings (Some ci) s))) = conv_ (this s))
    /\ (cinfo_column_ (snd (cacheColumnStrings (Some ci) s)) = cinfo_column_ s
        /\ col_data_ver_ (snd (cacheColumnStrings (Some ci) s)) = col_data_ver_ s).
Proof.
  destruct (cacheColumnStrings_spec ci s)
    as (ci' & s' & E & _ & _ & _ & F & (G1 & G2 & _) & K & Cells).
  rewrite E. cbn [fst snd]. exists ci'. split; [reflexivity|]. split; [exact K|].
  split; [|split; [exact F|split; assumption]].
  intros c Hne. rewrite Cells in *.
  destruct (Z.leb_spec 0 c), (Z.ltb_spec c (num_cols ci)); cbn [andb] in *;
    try contradiction.
  unfold column_cell, col_fill_in_frame_data in *.
  destruct (uses_unresolved ci c); [contradiction|].
  destruct (Z.ltb_spec (default (-1) (cinfo_column_ s !! c)) 0); [|contradiction].
  destruct (col_fill_in_frame_data_text (num (fdata_ (this s))) (col_fmt ci c));
    [|contradiction].
  cbn [col_data set_col_data]. unfold upd. rewrite Z.eqb_refl. repeat split; auto; lia.
Qed.

Lemma cacheColumnStrings_writes_witness :
  exists ci',
    fst (cacheColumnStrings (X := Demo.ext) (Some Demo.cinfo2) (Demo.fresh 1)) = Some ci'
    /\ (col_data ci' 0 <> col_data Demo.cinfo2 0 ->
        @col_fill_in_frame_data_text Demo.ext (num (fdata_ (this (Demo.fresh 1))))
          (col_fmt Demo.cinfo2 0)
        = Some (col_data ci' 0)).
Proof.
  destruct (cacheColumnStrings_writes (X := Demo.ext) Demo.cinfo2 (Demo.fresh 1))
    as (ci' & E & _ & H & _).
  exists ci'. split; [exact E|]. intros Hne. apply (H 0 Hne).
Defined.

Lemma state_ext (s1 s2 : state) :
  col_text_ (this s1) = col_text_ (this s2) ->
  fdata_ (this s1) = fdata_ (this s2) ->
  lines_ (this s1) = lines_ (this s2) ->
  line_count_changed_ (this s1) = line_count_changed_ (this s2) ->
  data_ver_ (this s1) = data_ver_ (this s2) ->
  colorized_ (this s1) = colorized_ (this s2) ->
  conv_ (this s1) = conv_ (this s2) ->
  cinfo_column_ s1 = cinfo_column_ s2 ->
  col_data_ver_ s1 = col_data_ver_ s2 ->
  trace s1 = trace s2 ->
  s1 = s2.
Proof.
  destruct s1 as [[] ? ? ?], s2 as [[] ? ? ?]. simpl. intros. subst. reflexivity.
Qed.

(** A column visited once already: its cell holds what the visit left, and
    a second visit leaves the same and chooses the same text. *)
Lemma column_cell_revisit {X : Externals} m fd ci ci1 (c : Z) :
  col_fmt ci1 = col_fmt ci ->
  col_expr_val ci1 = col_expr_val ci ->
  col_data ci1 c = column_cell m fd ci c ->
  column_cell m fd ci1 c = column_cell m fd ci c.
Proof.
  intros Hf He Hd.
  unfold column_cell, uses_unresolved, col_fill_in_frame_data in *.
  rewrite Hf, He in *.
  destruct (negb (get_column_resolved c)
            && match col_expr_val ci c with Some _ => true | None => false end);
    [exact Hd|].
  destruct (default (-1) (m !! c) <? 0); [|exact Hd].
  destruct (col_fill_in_frame_data_text (num fd) (col_fmt ci c));
    cbn [col_data set_col_data] in *; unfold upd in *; rewrite ?Z.eqb_refl in *;
    congruence.
Qed.

Lemma column_text_revisit {X : Externals} m fd ci ci1 (c : Z) :
  col_fmt ci1 = col_fmt ci ->
  col_expr_val ci1 = col_expr_val ci ->
  col_data ci1 c = column_cell m fd ci c ->
  column_text m fd ci1 c = column_text m fd ci c.
Proof.
  intros Hf He Hd. unfold column_text.
  rewrite He, (column_cell_revisit m fd ci ci1 c Hf He Hd). reflexivity.
Qed.

(** X11.  [cacheColumnStrings] is idempotent: run again on the column
    information it has just left behind, it leaves the record exactly as
    the first run did and every cell with the content it had. *)
Theorem cacheColumnStrings_idempotent {X : Externals} (ci : column_info) (s : state) :
  let r1 := cacheColumnStrings (Some ci) s in
  let r2 := cacheColumnStrings (fst r1) (snd r1) in
  snd r2 = snd r1
  /\ exists ci1 ci2,
       fst r1 = Some ci1 /\ fst r2 = Some ci2
       /\ num_cols ci2 = num_cols ci1
       /\ col_fmt ci2 = col_fmt ci1
       /\ col_expr_val ci2 = col_expr_val ci1
       /\ forall c, col_data ci2 c = col_data ci1 c.
Proof.
  cbv zeta.
  destruct (cacheColumnStrings_spec ci s)
    as (ci1 & s1 & E1 & T1 & L1 & C1 & (A1 & A2 & A3 & A4) & (G1 & G2 & G3)
        & (K1 & K2 & K3) & Cells1).
  rewrite E1. cbn [fst snd].
  destruct (cacheColumnStrings_spec ci1 s1)
    as (ci2 & s2 & E2 & T2 & L2 & C2 & (B1 & B2 & B3 & B4) & (H1 & H2 & H3)
        & (J1 & J2 & J3) & Cells2).
  rewrite E2. cbn [fst snd].
  assert (Hcell : forall c, 0 <= c < num_cols ci ->
                            col_data ci1 c
                            = column_cell (cinfo_column_ s) (fdata_ (this s)) ci c).
  { intros c Hc. rewrite Cells1.
    destruct (Z.leb_spec 0 c); [|lia]. destruct (Z.ltb_spec c (num_cols ci)); [|lia].
    reflexivity. }
  assert (Htexts : cached_texts (cinfo_column_ s1) (fdata_ (this s1)) ci1
                   = cached_texts (cinfo_column_ s) (fdata_ (this s)) ci).
  { unfold cached_texts. rewrite G1, A1, K1. apply map_ext_in. intros c Hin.
    apply list_elem_of_In, elem_of_seqZ in Hin. f_equal.
    apply column_text_revisit; [exact K2|exact K3|apply Hcell; lia]. }
  rewrite Htexts in T2, L2.
  split.
  - apply state_ext; congruence.
  - exists ci1, ci2. repeat split; auto.
    intros c. rewrite Cells2, G1, A1, K1.
    destruct (Z.leb_spec 0 c); [|reflexivity].
    destruct (Z.ltb_spec c (num_cols ci)); [|reflexivity]. cbn [andb].
    rewrite (column_cell_revisit _ _ ci ci1 c K2 K3 (Hcell c ltac:(lia))).
    symmetry. apply Hcell. lia.
Qed.

Lemma cacheColumnStrings_idempotent_witness :
  snd (cacheColumnStrings (X := Demo.ext)
         (fst (cacheColumnStrings (X := Demo.ext) (Some DemoRuns.populated_cinfo)
                 DemoRuns.populated))
         (snd (cacheColumnStrings (X := Demo.ext) (Some DemoRuns.populated_cinfo)
                 DemoRuns.populated)))
  = snd (cacheColumnStrings (X := Demo.ext) (Some DemoRuns.populated_cinfo)
           DemoRuns.populated).
Proof.
  apply (cacheColumnStrings_idempotent (X := Demo.ext) DemoRuns.populated_cinfo
           DemoRuns.populated).
Defined.

(** ** What holds of a record at all times *)

Lemma dissect_texts_inv {X : Externals} (cap_file : option capture_file) (dc : bool)
    (s : state) :
  (forall l, col_text_ (this s) = Some l ->
             Forall is_Some l
             /\ lines_ (this s) = fold_left Z.max (map text_lines l) 1) ->
  line_count_changed_ (this s) = (1 <? lines_ (this s)) ->
  lines_ (this s) = 1 \/ col_text_ (this s) <> None ->
  let s' := snd (dissect cap_file dc s) in
  (forall l, col_text_ (this s') = Some l ->
             Forall is_Some l
             /\ lines_ (this s') = fold_left Z.max (map text_lines l) 1)
  /\ line_count_changed_ (this s') = (1 <? lines_ (this s'))
  /\ (lines_ (this s') = 1 \/ col_text_ (this s') <> None).
Proof.
  intros Ht Hf Hn. cbv zeta.
  destruct cap_file as [cf|].
  - destruct (dissect_summary cf dc s) as (cf' & s' & E & _ & _ & _ & _ & T).
    rewrite E. cbn [snd].
    destruct (dissect_columns_needed s).
    + destruct T as (texts & T1 & _ & T3 & L & C).
      split; [|split; [exact C|right; congruence]].
      intros l Hl. rewrite T1 in Hl. injection Hl as <-. auto.
    + destruct T as (T1 & T2 & T3 & _). rewrite T1, T2, T3. auto.
  - unfold dissect.
    change (col_text_ (this (log (EvDissect dc) s))) with (col_text_ (this s)).
    destruct (col_text_ (this s)) as [l|] eqn:Hl; cbn [snd].
    + change (this (log (EvDissect dc) s)) with (this s). rewrite Hl. auto.
    + cbn [log this col_text_ set_this set_col_text lines_ line_count_changed_].
      split; [|split; [exact Hf|right; discriminate]].
      intros l [= <-]. split; [constructor|].
      destruct Hn as [Hn|Hn]; [exact Hn|contradiction].
Qed.

(** X12.  In every state a record goes through, the cached texts hold no
    null pointer, [lines_] is the largest number of lines of a cached text
    (1 when there is none), and [line_count_changed_] is set exactly when
    [lines_] exceeds 1. *)
Theorem record_lines_agree_with_texts {X : Externals} (s : state) :
  reachable s ->
  (forall l, col_text_ (this s) = Some l ->
             Forall is_Some l
             /\ lines_ (this s) = fold_left Z.max (map text_lines l) 1)
  /\ line_count_changed_ (this s) = (1 <? lines_ (this s))
  /\ (lines_ (this s) = 1 \/ col_text_ (this s) <> None).
Proof.
  induction 1 as [fd m v tr | s cap_file column colorized _ IH | s cinfo _ IH | s _ IH].
  - cbn. split; [discriminate|]. split; [reflexivity|left; reflexivity].
  - destruct IH as (I1 & I2 & I3). unfold columnString.
    destruct cap_file as [cf|]; [|cbn [snd]; auto].
    destruct ((column <? 0) || (column >? num_cols (cinfo cf))); [cbn [snd]; auto|].
    match goal with |- context [if ?c then _ else _] => destruct c end;
      [|cbn [snd]; auto].
    pose proof (dissect_texts_inv (Some cf) (colorized && negb (colorized_ (this s)))
                  s I1 I2 I3) as D.
    destruct (dissect (Some cf) (colorized && negb (colorized_ (this s))) s).
    exact D.
  - destruct (resetColumns_this cinfo s) as (A & _). rewrite A. exact IH.
  - exact IH.
Qed.

Lemma record_lines_agree_with_texts_witness :
  line_count_changed_ (this DemoRuns.populated)
  = (1 <? lines_ (this DemoRuns.populated)).
Proof.
  apply (record_lines_agree_with_texts (X := Demo.ext) DemoRuns.populated).
  apply (reach_columnString (X := Demo.ext) _ (Some Demo.cf2) 1 false).
  apply (reach_resetColumns (X := Demo.ext) _ (Some Demo.cinfo2)).
  apply reach_new.
Defined.

(** ** Columns filled from the frame data when the read fails *)

Lemma needed_is_miss (s : state) (column : Z) (dc : bool) :
  dissect_columns_needed s = true -> 0 <= column ->
  cache_miss s column dc = true.
Proof.
  intros H Hc. unfold dissect_columns_needed, QList_isEmpty in H.
  unfold cache_miss.
  destruct (negb (data_ver_ (this s) =? col_data_ver_ s));
    [now rewrite orb_true_r|].
  rewrite orb_false_r in H. apply Z.eqb_eq in H.
  destruct (col_text_ (this s)); [|reflexivity]. cbn [orb].
  destruct (Z.geb_spec column (QList_size (Some l))); [reflexivity|lia].
Qed.

(** X13.  When the record cannot be read and the columns are due, a column
    the static map does not list still gets the text
    [col_fill_in_frame_data] writes for the frame (provided its text is not
    taken from an unresolved value), whatever the error fill put in its
    cell. *)
Theorem read_failure_keeps_frame_columns {X : Externals} (cf : capture_file)
    (s : state) (column : Z) (colorized : bool) (c : Z) (ft : string) :
  cf_read_record_r (cf_source cf) (num (fdata_ (this s))) = None ->
  dissect_columns_needed s = true ->
  0 <= column <= num_cols (cinfo cf) ->
  0 <= c < num_cols (cinfo cf) ->
  get_column_resolved c = true \/ col_expr_val (cinfo cf) c = None ->
  default (-1) (cinfo_column_ s !! c) < 0 ->
  col_fill_in_frame_data_text (num (fdata_ (this s))) (col_fmt (cinfo cf) c) = Some ft ->
  QList_value (col_text_ (this (snd (columnString (Some cf) column colorized s)))) c
  = ft.
Proof.
  intros R Hneed Hcol Hc Hres Htc Hft.
  rewrite (columnString_miss cf column colorized s Hcol
             (needed_is_miss s column _ Hneed ltac:(lia))).
  destruct (dissect_read_error cf (colorized && negb (colorized_ (this s))) s R)
    as (cf' & s' & E & _ & _ & _ & _ & P).
  rewrite E. cbn [snd]. rewrite Hneed in P. cbv zeta in P. destruct P as (T & _).
  rewrite T. unfold QList_value.
  rewrite cached_texts_at by (cbn [num_cols col_fill_in_error set_col_data]; lia).
  unfold column_text, column_cell, uses_unresolved, col_fill_in_frame_data.
  change (col_expr_val (col_fill_in_error (cinfo cf) (fdata_ (this s))) c)
    with (col_expr_val (cinfo cf) c).
  change (col_fmt (col_fill_in_error (cinfo cf) (fdata_ (this s))) c)
    with (col_fmt (cinfo cf) c).
  rewrite Hft.
  destruct (Z.ltb_spec (default (-1) (cinfo_column_ s !! c)) 0); [|lia].
  assert (Hcell : col_data
                    (set_col_data
                       (upd (col_data (col_fill_in_error (cinfo cf) (fdata_ (this s))))
                            c ft)
                       (col_fill_in_error (cinfo cf) (fdata_ (this s)))) c = ft)
    by (cbn [col_data set_col_data]; unfold upd; now rewrite Z.eqb_refl).
  destruct Hres as [Hr|Hr]; rewrite Hr; cbn [negb andb];
    [|destruct (get_column_resolved c); cbn [negb andb]]; exact Hcell.
Qed.

Lemma read_failure_keeps_frame_columns_witness :
  QList_value
    (col_text_ (this (snd (columnString (X := Demo.ext) (Some Demo.cf2) 1 false
                             (Demo.fresh 2)))))
    0
  = "2".
Proof.
  apply (read_failure_keeps_frame_columns (X := Demo.ext) Demo.cf2 (Demo.fresh 2)
           1 false 0 "2").
  - reflexivity.
  - reflexivity.
  - simpl. lia.
  - simpl. lia.
  - left. reflexivity.
  - vm_compute. reflexivity.
  - reflexivity.
Defined.

(** ** Many reads of a readable record *)

Lemma current_reads_are_hits {X : Externals} (n : nat) (cf : capture_file)
    (s : state) (column : Z) (colorized : bool) :
  cache_current s cf ->
  0 <= column < num_cols (cinfo cf) ->
  colorized && negb (colorized_ (this s)) = false ->
  columnString_times n (Some cf) column colorized s = (Some cf, s).
Proof.
  intros Hcur Hc Hdc. induction n as [|n IH]; [reflexivity|].
  cbn [columnString_times].
  rewrite (columnString_current_hit cf s column colorized Hcur Hc Hdc). exact IH.
Qed.

(** X14.  On a readable record with a coherent cache, any number of reads
    in a row of one valid column with one colouring request cost one
    population when the first of them misses, and none when it hits; the
    dissection engine runs as often. *)
Theorem repeated_reads_cost_one_population {X : Externals} (n : nat)
    (cf : capture_file) (s : state) (column : Z) (colorized : bool) (rec : wtap_rec) :
  cache_coherent s cf ->
  0 <= column < num_cols (cinfo cf) ->
  cf_read_record_r (cf_source cf) (num (fdata_ (this s))) = Some rec ->
  let k := if cache_miss s column (colorized && negb (colorized_ (this s)))
           then 1%nat else 0%nat in
  let r := columnString_times (S n) (Some cf) column colorized s in
  populations (trace (snd r)) = (populations (trace s) + k)%nat
  /\ parser_runs (trace (snd r)) = (parser_runs (trace s) + k)%nat.
Proof.
  intros Hcoh Hc R. cbv zeta. cbn [columnString_times].
  set (dc := colorized && negb (colorized_ (this s))).
  destruct (cache_miss s column dc) eqn:M.
  - rewrite (columnString_miss cf column colorized s ltac:(lia) M). fold dc.
    destruct (dissect_covers cf dc s Hcoh ltac:(lia))
      as (cf' & s' & E & K1 & _ & _ & G & C & (l & Hl & Hlen & Hs) & V & Q).
    destruct (dissect_summary cf dc s) as (cf1 & s1 & E1 & (P & _) & _).
    rewrite E in E1. injection E1 as <- <-.
    rewrite E. rewrite R in V, Q.
    rewrite (current_reads_are_hits n cf' s' column colorized).
    + cbn [snd]. lia.
    + exists l. repeat split; auto; [lia|congruence].
    + lia.
    + rewrite C. subst dc. apply colour_settled.
  - rewrite (columnString_hit cf column colorized s ltac:(lia) M).
    destruct (hit_is_current s cf column dc Hcoh ltac:(lia) M) as (Hcur & Hdc).
    rewrite (current_reads_are_hits n cf s column colorized Hcur Hc Hdc).
    cbn [snd]. lia.
Qed.

Lemma repeated_reads_cost_one_population_witness :
  populations
    (trace (snd (columnString_times (X := Demo.ext) 5 (Some Demo.cf2) 1 true
                   (Demo.fresh 1))))
  = (populations (trace (Demo.fresh 1)) + 1)%nat.
Proof.
  apply (repeated_reads_cost_one_population (X := Demo.ext) 4 Demo.cf2 (Demo.fresh 1)
           1 true []).
  - intros l Hl. vm_compute in Hl. discriminate.
  - simpl. lia.
  - reflexivity.
Defined.

(** ** The map and the column loop together *)

(** X15.  When [cinfo_column_] was built by [resetColumns] from the
    descriptor that is then cached, the column loop treats exactly the
    columns based on the frame data as such: for a column whose text is not
    taken from an unresolved value, the cached text is the text
    [col_fill_in_frame_data] writes if the column is based on the frame
    data (the cell as it is when that function writes nothing), and the
    cell as the descriptor holds it otherwise. *)
Theorem rebuilt_map_classifies_columns {X : Externals} (ci : column_info) (s : state)
    (c : Z) :
  0 <= c < num_cols ci ->
  get_column_resolved c = true \/ col_expr_val ci c = None ->
  QList_value
    (col_text_ (this (snd (cacheColumnStrings (Some ci) (resetColumns (Some ci) s)))))
    c
  = if col_based_on_frame_data ci c
    then match col_fill_in_frame_data_text (num (fdata_ (this s))) (col_fmt ci c) with
         | Some ft => ft
         | None => col_data ci c
         end
    else col_data ci c.
Proof.
  intros Hc Hres.
  rewrite (cacheColumnStrings_value ci (resetColumns (Some ci) s) c Hc).
  destruct (resetColumns_this (Some ci) s) as (A & _). rewrite A.
  unfold column_text, column_cell, uses_unresolved, col_fill_in_frame_data.
  rewrite resetColumns_lookup.
  destruct (Z.leb_spec 0 c); [|lia]. destruct (Z.ltb_spec c (num_cols ci)); [|lia].
  cbn [andb].
  assert (Hno : (if get_column_resolved c then None else col_expr_val ci c) = None)
    by (destruct Hres as [-> | ->]; [|destruct (get_column_resolved c)]; reflexivity).
  assert (Hu : negb (get_column_resolved c)
               && match col_expr_val ci c with Some _ => true | None => false end
               = false)
    by (destruct Hres as [-> | ->]; [|destruct (get_column_resolved c)]; reflexivity).
  rewrite Hno, Hu.
  destruct (col_based_on_frame_data ci c); cbn [negb default].
  - destruct (col_fill_in_frame_data_text (num (fdata_ (this s))) (col_fmt ci c));
      cbn; unfold upd; rewrite ?Z.eqb_refl; reflexivity.
  - pose proof (parser_columns_before_nonneg ci c). unfold id.
    destruct (Z.ltb_spec (parser_columns_before ci c) 0); [lia|reflexivity].
Qed.

Lemma rebuilt_map_classifies_columns_witness :
  QList_value
    (col_text_
       (this (snd (cacheColumnStrings (X := Demo.ext) (Some DemoRuns.populated_cinfo)
                     (resetColumns (X := Demo.ext) (Some DemoRuns.populated_cinfo)
                                   DemoRuns.populated)))))
    1
  = Demo.info_text 1.
Proof.
  rewrite (rebuilt_map_classifies_columns (X := Demo.ext) DemoRuns.populated_cinfo
             DemoRuns.populated 1).
  - vm_compute. reflexivity.
  - vm_compute. split; [discriminate|reflexivity].
  - left. reflexivity.
Defined.
